(** * python_typing.py: runtime behaviour of the annotated example script

    The repository is one Python module, a catalogue of typing examples that
    is also a runnable script.  This development embeds the module in Rocq:
    every function of the script is a Rocq function in a state-and-exception
    monad, every module-level statement is an action on the module
    namespace, the object heap and the console.

    Python version.  The script imports [TypeAlias] and [TypeGuard] from
    [typing] and writes [float | List[float]]; its own comments say these
    need Python 3.10.  The embedding follows CPython 3.10: annotations of
    module-level names, class bodies and function signatures are evaluated
    when the statement runs, integers are unbounded ([Z]) and floats are
    IEEE binary64 ([PrimFloat]). *)

From Stdlib Require Import ZArith String Ascii List Floats DecimalString Lia.
From stdpp Require Import gmap strings list.

Set Warnings "-inexact-float,-register-all".
Open Scope Z_scope.

(** ** Values *)

(** Heap addresses. *)
Abbreviation loc := nat.

(** The code objects of the module: one per [def] or [lambda] of the
    script, named after the function (with the line number where the
    script reuses a name). *)
Inductive code : Set :=
| c_PaymentSystem_pay | c_DebitPaymentSystem_pay
| c_multiply_l132 | c_hello_world | c_raise_exception
| c_show_vehicle | c_show_truck | c_is_user_valid
| c_Citizen_get_summary | c_Diplomat_get_summary
| c_Car_set_pretol_price
| c_double | c_double_alternative
| c_greetings | c_greetings_alternative
| c_get_scores | c_convertable_to_string
| c_triple_l551 | c_triple_l556 | c_triple
| c_sum_all_elements | c_sum_all_elements_2_l595 | c_sum_all_elements_2
| c_StreamingSystem_play | c_WebStreamingSystem_play
| c_map_function | c_double_def | c_Doubler_call | c_lambda_l673
| c_summation | c_multiply | c_helper
| c_first_union | c_first_typevar
| c_first_typevar_constrained | c_first_typevar_bounded
| c_WebCamStreamingService_show_quality.

(** Classes that exist before the script runs: the built-in types and
    exceptions the script (or the interpreter, when it raises) mentions,
    [abc.ABC], and [typing]'s [Generic] and [Protocol]. *)
Inductive bclass : Set :=
| C_object | C_type | C_NoneType | C_ellipsis
| C_bool | C_int | C_float | C_complex | C_str | C_bytes
| C_tuple | C_list | C_set | C_dict | C_range | C_dict_values
| C_function | C_method | C_builtin_function
| C_BaseException | C_Exception
| C_ArithmeticError | C_OverflowError
| C_AssertionError | C_AttributeError | C_ImportError
| C_LookupError | C_IndexError | C_KeyError
| C_NameError | C_RuntimeError | C_NotImplementedError
| C_TypeError | C_ValueError
| C_ABC | C_Generic | C_Protocol.

(** A class is built in or was created by a [class] statement (and then
    lives in the heap). *)
Inductive cref : Set :=
| CB (b : bclass)
| CU (l : loc).

(** Built-in callables that are not classes. *)
Inductive builtin : Set :=
| B_isinstance | B_print | B_sum | B_all
| B_dataclass          (* dataclasses.dataclass *)
| B_overload_dummy.    (* what typing.overload returns *)

Inductive value : Type :=
| VNone
| VEllipsis
| VBool (b : bool)
| VInt (n : Z)
| VFloat (x : float)
| VComplex (re im : float)
| VStr (s : string)
| VBytes (s : string)
| VTuple (items : list value)
| VRange (start stop : Z)                 (* range(start, stop) *)
| VObj (l : loc)                          (* list, set, dict or instance *)
| VDictValues (l : loc)                   (* the view d.values() *)
| VClass (c : cref)
| VFunction (c : code) (closure : list value)
| VBound (self : value) (func : value)    (* bound method *)
| VMethod (self : value) (name : string)  (* method of a built-in object *)
| VDataInit (owner : string) (params : list (string * option value))
                                          (* __init__ written by @dataclass *)
| VBuiltin (b : builtin)
| VTyping (name : string)                 (* a member of the typing module *)
| VAlias (origin : value) (args : list value)   (* origin[args] *)
| VTypeVar (name : string) (constraints : list value) (bound : option value)
| VNewType (name : string) (supertype : value).

(** ** Heap objects and the machine state *)

Inductive class_kind : Set := KPlain | KProtocol | KTypedDict.

Record class_obj : Type := ClassObj {
  cls_name : string;
  cls_bases : list cref;
  cls_mro : list cref;                       (* __mro__, the class first *)
  cls_kind : class_kind;
  cls_attrs : gmap string value;             (* the class __dict__ *)
  cls_annotations : list (string * value);   (* __annotations__, in order *)
  cls_fields : option (list (string * option value))
                                             (* dataclass fields, defaults *)
}.

(** Dictionaries of the script are keyed by strings only; they keep
    insertion order. *)
Inductive obj : Type :=
| OList (items : list value)
| OSet (items : list value)
| ODict (items : list (string * value))
| OInstance (cls : cref) (attrs : gmap string value)
| OClass (c : class_obj).

Record state : Type := State {
  globals : gmap string value;   (* the module namespace *)
  heap : list obj;               (* address = index; objects are never freed *)
  stdout : list string           (* console lines, oldest first *)
}.

Definition initial_state : state :=
  {| globals := ∅; heap := []; stdout := [] |}.

(** ** The monad: state, Python exceptions, and a third outcome for what
    the embedding does not cover *)

Inductive outcome (A : Type) : Type :=
| Normal (a : A)
| Raised (exc : value)       (* a Python exception is propagating *)
| Stuck (why : string).      (* out of fuel, or outside the modelled fragment *)
Arguments Normal {A} a.
Arguments Raised {A} exc.
Arguments Stuck {A} why.

Definition M (A : Type) : Type := state → outcome A * state.

#[global] Instance M_ret : MRet M := λ A a s, (Normal a, s).

#[global] Instance M_bind : MBind M := λ A B f m s,
  match m s with
  | (Normal a, s') => f a s'
  | (Raised e, s') => (Raised e, s')
  | (Stuck w, s') => (Stuck w, s')
  end.

Definition stuck {A} (why : string) : M A := λ s, (Stuck why, s).
Definition raise_value {A} (e : value) : M A := λ s, (Raised e, s).
Definition get_state : M state := λ s, (Normal s, s).
Definition put_state (s : state) : M unit := λ _, (Normal tt, s).

(** ** Heap, console and exceptions *)

Definition alloc (o : obj) : M loc := λ s,
  (Normal (length (heap s)),
   {| globals := globals s; heap := heap s ++ [o]; stdout := stdout s |}).

Definition deref (l : loc) : M obj := λ s,
  match heap s !! l with
  | Some o => (Normal o, s)
  | None => (Stuck "dangling reference", s)
  end.

Definition update (l : loc) (o : obj) : M unit := λ s,
  (Normal tt,
   {| globals := globals s; heap := <[l := o]> (heap s); stdout := stdout s |}).

(** [print(line)]: one more console line. *)
Definition print_line (line : string) : M unit := λ s,
  (Normal tt,
   {| globals := globals s; heap := heap s; stdout := stdout s ++ [line] |}).

(** An exception instance keeps its constructor arguments in [args]. *)
Definition new_exception (c : cref) (args : list value) : M value :=
  l ← alloc (OInstance c {[ "args" := VTuple args ]});
  mret (VObj l).

(** The interpreter raises a built-in exception with a message. *)
Definition throw {A} (b : bclass) (msg : string) : M A :=
  e ← new_exception (CB b) [VStr msg];
  raise_value e.

(** ** Classes: names, bases and method resolution order *)

#[global] Instance bclass_eq_dec : EqDecision bclass.
Proof. solve_decision. Defined.

#[global] Instance cref_eq_dec : EqDecision cref.
Proof. solve_decision. Defined.

Definition bclass_name (b : bclass) : string :=
  match b with
  | C_object => "object" | C_type => "type" | C_NoneType => "NoneType"
  | C_ellipsis => "ellipsis"
  | C_bool => "bool" | C_int => "int" | C_float => "float"
  | C_complex => "complex" | C_str => "str" | C_bytes => "bytes"
  | C_tuple => "tuple" | C_list => "list" | C_set => "set" | C_dict => "dict"
  | C_range => "range" | C_dict_values => "dict_values"
  | C_function => "function" | C_method => "method"
  | C_builtin_function => "builtin_function_or_method"
  | C_BaseException => "BaseException" | C_Exception => "Exception"
  | C_ArithmeticError => "ArithmeticError" | C_OverflowError => "OverflowError"
  | C_AssertionError => "AssertionError" | C_AttributeError => "AttributeError"
  | C_ImportError => "ImportError"
  | C_LookupError => "LookupError" | C_IndexError => "IndexError"
  | C_KeyError => "KeyError"
  | C_NameError => "NameError" | C_RuntimeError => "RuntimeError"
  | C_NotImplementedError => "NotImplementedError"
  | C_TypeError => "TypeError" | C_ValueError => "ValueError"
  | C_ABC => "ABC" | C_Generic => "Generic" | C_Protocol => "Protocol"
  end.

(** The single base of each pre-existing class ([object] has none). *)
Definition bclass_base (b : bclass) : option bclass :=
  match b with
  | C_object => None
  | C_bool => Some C_int
  | C_Exception => Some C_BaseException
  | C_ArithmeticError | C_AssertionError | C_AttributeError | C_ImportError
  | C_LookupError | C_NameError | C_RuntimeError | C_TypeError
  | C_ValueError => Some C_Exception
  | C_OverflowError => Some C_ArithmeticError
  | C_IndexError | C_KeyError => Some C_LookupError
  | C_NotImplementedError => Some C_RuntimeError
  | C_Protocol => Some C_Generic
  | _ => Some C_object
  end.

Fixpoint bclass_chain (depth : nat) (b : bclass) : list bclass :=
  match depth with
  | O => [b]
  | S d => b :: match bclass_base b with
                | Some b' => bclass_chain d b'
                | None => []
                end
  end.

(** No chain of built-in bases is longer than five classes. *)
Definition bclass_mro (b : bclass) : list cref := CB <$> bclass_chain 5 b.

Definition is_exception_class (b : bclass) : bool :=
  bool_decide (CB C_BaseException ∈ bclass_mro b).

(** C3 linearisation, as [type.__new__] computes [__mro__]. *)
Definition c3_candidate (seqs : list (list cref)) (h : cref) : bool :=
  forallb (λ q, bool_decide (h ∉ tail q)) seqs.

Definition c3_next (seqs : list (list cref)) : option cref :=
  List.find (c3_candidate seqs) (omap head seqs).

Definition c3_drop (h : cref) (q : list cref) : list cref :=
  match q with
  | x :: q' => if decide (x = h) then q' else q
  | [] => []
  end.

Fixpoint c3_merge (fuel : nat) (seqs : list (list cref)) : option (list cref) :=
  match List.filter (λ q, negb (bool_decide (q = []))) seqs with
  | [] => Some []
  | live =>
    match fuel with
    | O => None
    | S fuel' =>
      h ← c3_next live;
      rest ← c3_merge fuel' (c3_drop h <$> live);
      Some (h :: rest)
    end
  end.

Definition mro_of (s : state) (c : cref) : option (list cref) :=
  match c with
  | CB b => Some (bclass_mro b)
  | CU l => match heap s !! l with
            | Some (OClass k) => Some (cls_mro k)
            | _ => None
            end
  end.

(** [None]: some base is not a class of the heap, or the bases have no
    consistent order (Python raises [TypeError] then). *)
Definition linearise (s : state) (self : cref) (bases : list cref)
    : option (list cref) :=
  mros ← mapM (mro_of s) bases;
  rest ← c3_merge (S (length (concat mros) + length bases)) (mros ++ [bases]);
  Some (self :: rest).

Definition class_name_of (s : state) (c : cref) : option string :=
  match c with
  | CB b => Some (bclass_name b)
  | CU l => match heap s !! l with
            | Some (OClass k) => Some (cls_name k)
            | _ => None
            end
  end.

(** ** Numbers *)

(** [float(n)] for an integer: round to nearest even; [None] where Python
    raises [OverflowError] (the integer is beyond the largest float). *)
Definition float_of_int (n : Z) : option float :=
  match SpecFloat.binary_normalize 53 1024 n 0 false with
  | S754_infinity _ => None
  | sf => Some (SF2Prim sf)
  end.

(** Is the float [x] exactly the integer [n]?  Python compares an [int]
    with a [float] by value, without rounding the integer. *)
Definition float_eqb_int (x : float) (n : Z) : bool :=
  match Prim2SF x with
  | S754_zero _ => n =? 0
  | S754_finite sg m e =>
      let v := if sg then Z.neg m else Z.pos m in
      if 0 <=? e then n =? v * 2 ^ e else n * 2 ^ (- e) =? v
  | _ => false
  end.

(** The numeric tower: [bool] is an [int]. *)
Inductive num : Set :=
| NInt (n : Z)
| NFloat (x : float)
| NComplex (re im : float).

Definition as_num (v : value) : option num :=
  match v with
  | VBool b => Some (NInt (if b then 1 else 0))
  | VInt n => Some (NInt n)
  | VFloat x => Some (NFloat x)
  | VComplex re im => Some (NComplex re im)
  | _ => None
  end.

Definition num_to_float (a : num) : option float :=
  match a with
  | NInt n => float_of_int n
  | NFloat x => Some x
  | NComplex _ _ => None
  end.

Definition num_to_complex (a : num) : option (float * float) :=
  match a with
  | NComplex re im => Some (re, im)
  | _ => x ← num_to_float a; Some (x, 0%float)
  end.

Definition is_complex (a : num) : bool :=
  match a with NComplex _ _ => true | _ => false end.

(** [a * b] and [a + b] on numbers; [None] is [OverflowError] from
    converting an integer operand to [float]. *)
Definition num_mul (a b : num) : option value :=
  match a, b with
  | NInt x, NInt y => Some (VInt (x * y))
  | _, _ =>
    if is_complex a || is_complex b then
      '(ar, ai) ← num_to_complex a;
      '(br, bi) ← num_to_complex b;
      Some (VComplex (ar * br - ai * bi)%float (ar * bi + ai * br)%float)
    else
      x ← num_to_float a;
      y ← num_to_float b;
      Some (VFloat (x * y)%float)
  end.

Definition num_add (a b : num) : option value :=
  match a, b with
  | NInt x, NInt y => Some (VInt (x + y))
  | _, _ =>
    if is_complex a || is_complex b then
      '(ar, ai) ← num_to_complex a;
      '(br, bi) ← num_to_complex b;
      Some (VComplex (ar + br)%float (ai + bi)%float)
    else
      x ← num_to_float a;
      y ← num_to_float b;
      Some (VFloat (x + y)%float)
  end.

Definition num_eqb (a b : num) : bool :=
  match a, b with
  | NInt x, NInt y => x =? y
  | NInt n, NFloat x | NFloat x, NInt n => float_eqb_int x n
  | NFloat x, NFloat y => PrimFloat.eqb x y
  | NComplex ar ai, NComplex br bi => PrimFloat.eqb ar br && PrimFloat.eqb ai bi
  | NComplex re im, NInt n | NInt n, NComplex re im =>
      float_eqb_int re n && PrimFloat.eqb im 0
  | NComplex re im, NFloat x | NFloat x, NComplex re im =>
      PrimFloat.eqb re x && PrimFloat.eqb im 0
  end.

(** ** Strings *)

Definition str_of_int (n : Z) : string := NilZero.string_of_int (Z.to_int n).

Fixpoint str_repeat (n : nat) (s : string) : string :=
  match n with
  | O => ""
  | S n' => s +:+ str_repeat n' s
  end.

Fixpoint str_join (sep : string) (parts : list string) : string :=
  match parts with
  | [] => ""
  | [p] => p
  | p :: rest => p +:+ sep +:+ str_join sep rest
  end.

(** [str(v)], as an f-string field [{v}] formats it.  Only what the
    script formats is covered: [None], [bool], [int] and [str]. *)
Definition py_str (v : value) : M string :=
  match v with
  | VNone => mret "None"
  | VBool true => mret "True"
  | VBool false => mret "False"
  | VInt n => mret (str_of_int n)
  | VStr s => mret s
  | _ => stuck "str() of this value is not modelled"
  end.

(** ** The class of a value, [isinstance], truth *)

(** [type(v)].  [None] for class objects (metaclasses are not modelled),
    for objects of the [typing] module, and for dangling references. *)
Definition type_of (s : state) (v : value) : option cref :=
  match v with
  | VNone => Some (CB C_NoneType)
  | VEllipsis => Some (CB C_ellipsis)
  | VBool _ => Some (CB C_bool)
  | VInt _ => Some (CB C_int)
  | VFloat _ => Some (CB C_float)
  | VComplex _ _ => Some (CB C_complex)
  | VStr _ => Some (CB C_str)
  | VBytes _ => Some (CB C_bytes)
  | VTuple _ => Some (CB C_tuple)
  | VRange _ _ => Some (CB C_range)
  | VObj l =>
      match heap s !! l with
      | Some (OList _) => Some (CB C_list)
      | Some (OSet _) => Some (CB C_set)
      | Some (ODict _) => Some (CB C_dict)
      | Some (OInstance c _) => Some c
      | _ => None
      end
  | VDictValues _ => Some (CB C_dict_values)
  | VFunction _ _ | VDataInit _ _ => Some (CB C_function)
  | VBound _ _ => Some (CB C_method)
  | VBuiltin (B_dataclass | B_overload_dummy) => Some (CB C_function)
  | VBuiltin _ | VMethod _ _ => Some (CB C_builtin_function)
  | VClass _ | VTyping _ | VAlias _ _ | VTypeVar _ _ _ | VNewType _ _ => None
  end.

(** Is [c] in the method resolution order of [type(v)]? *)
Definition instance_of (s : state) (v : value) (c : cref) : option bool :=
  t ← type_of s v;
  mro ← mro_of s t;
  Some (bool_decide (c ∈ mro)).

Definition py_isinstance (v : value) (c : cref) : M bool := λ s,
  match instance_of s v c with
  | Some b => (Normal b, s)
  | None => (Stuck "isinstance: the class of this value is not modelled", s)
  end.

(** [v.__class__.__name__] *)
Definition py_class_name (v : value) : M string := λ s,
  match type_of s v ≫= class_name_of s with
  | Some n => (Normal n, s)
  | None => (Stuck "__class__: the class of this value is not modelled", s)
  end.

(** Truth value, as [if] and [assert] take it.  No class of the script
    defines [__bool__] or [__len__], so its instances are true. *)
Definition py_truthy (v : value) : M bool :=
  match v with
  | VNone => mret false
  | VBool b => mret b
  | VInt n => mret (negb (n =? 0))
  | VFloat x => mret (negb (PrimFloat.eqb x 0))
  | VComplex re im => mret (negb (PrimFloat.eqb re 0 && PrimFloat.eqb im 0))
  | VStr s | VBytes s => mret (negb (String.eqb s ""))
  | VTuple items => mret (negb (bool_decide (length items = O)))
  | VRange a b => mret (a <? b)
  | VObj l =>
      o ← deref l;
      match o with
      | OList items | OSet items => mret (negb (bool_decide (length items = O)))
      | ODict items => mret (negb (bool_decide (length items = O)))
      | OInstance _ _ => mret true
      | OClass _ => stuck "ill-formed reference to a class"
      end
  | VDictValues l =>
      o ← deref l;
      match o with
      | ODict items => mret (negb (bool_decide (length items = O)))
      | _ => stuck "ill-formed dictionary view"
      end
  | _ => mret true
  end.

(** ** Operators *)

(** An integer usable as an index or a repetition count. *)
Definition as_index (v : value) : option Z :=
  match v with
  | VInt n => Some n
  | VBool b => Some (if b then 1 else 0)
  | _ => None
  end.

(** [seq * n]: repetition; a list is copied into a new object. *)
Definition seq_repeat (seq : value) (n : Z) : M value :=
  match seq with
  | VStr s => mret (VStr (str_repeat (Z.to_nat n) s))
  | VBytes s => mret (VBytes (str_repeat (Z.to_nat n) s))
  | VTuple items => mret (VTuple (concat (replicate (Z.to_nat n) items)))
  | VObj l =>
      o ← deref l;
      match o with
      | OList items =>
          l' ← alloc (OList (concat (replicate (Z.to_nat n) items)));
          mret (VObj l')
      | _ => throw C_TypeError "unsupported operand type(s) for *"
      end
  | _ => throw C_TypeError "unsupported operand type(s) for *"
  end.

(** [v * w].  No class of the script defines [__mul__] or [__rmul__]. *)
Definition py_mul (v w : value) : M value :=
  match as_num v, as_num w with
  | Some a, Some b =>
      match num_mul a b with
      | Some r => mret r
      | None => throw C_OverflowError "int too large to convert to float"
      end
  | _, _ =>
      match as_index w, as_index v with
      | Some n, _ => seq_repeat v n
      | None, Some n => seq_repeat w n
      | None, None => throw C_TypeError "unsupported operand type(s) for *"
      end
  end.

(** [v + w]: numbers, and concatenation of two sequences of one kind. *)
Definition py_add (v w : value) : M value :=
  match as_num v, as_num w with
  | Some a, Some b =>
      match num_add a b with
      | Some r => mret r
      | None => throw C_OverflowError "int too large to convert to float"
      end
  | _, _ =>
      match v, w with
      | VStr a, VStr b => mret (VStr (a +:+ b))
      | VBytes a, VBytes b => mret (VBytes (a +:+ b))
      | VTuple a, VTuple b => mret (VTuple (a ++ b))
      | VObj la, VObj lb =>
          oa ← deref la;
          ob ← deref lb;
          match oa, ob with
          | OList a, OList b => l ← alloc (OList (a ++ b)); mret (VObj l)
          | _, _ => throw C_TypeError "unsupported operand type(s) for +"
          end
      | _, _ => throw C_TypeError "unsupported operand type(s) for +"
      end
  end.

Definition is_scalar (v : value) : bool :=
  match v with
  | VNone | VBool _ | VInt _ | VFloat _ | VComplex _ _ | VStr _ | VBytes _ => true
  | _ => false
  end.

(** [v == w] on numbers, strings and [None]; comparisons of containers
    and instances are not modelled. *)
Definition py_eq (v w : value) : M value :=
  match as_num v, as_num w with
  | Some a, Some b => mret (VBool (num_eqb a b))
  | _, _ =>
      match v, w with
      | VStr a, VStr b | VBytes a, VBytes b => mret (VBool (String.eqb a b))
      | VNone, VNone => mret (VBool true)
      | _, _ =>
          if is_scalar v && is_scalar w then mret (VBool false)
          else stuck "== on these values is not modelled"
      end
  end.

(** ** Names: the module namespace, the built-ins, imports *)

(** The built-in names the script mentions. *)
Definition builtins_table : list (string * value) :=
  [ ("int", VClass (CB C_int)); ("float", VClass (CB C_float));
    ("bool", VClass (CB C_bool)); ("complex", VClass (CB C_complex));
    ("str", VClass (CB C_str)); ("bytes", VClass (CB C_bytes));
    ("object", VClass (CB C_object)); ("type", VClass (CB C_type));
    ("tuple", VClass (CB C_tuple)); ("list", VClass (CB C_list));
    ("set", VClass (CB C_set)); ("dict", VClass (CB C_dict));
    ("range", VClass (CB C_range));
    ("BaseException", VClass (CB C_BaseException));
    ("Exception", VClass (CB C_Exception));
    ("ValueError", VClass (CB C_ValueError));
    ("TypeError", VClass (CB C_TypeError));
    ("NameError", VClass (CB C_NameError));
    ("NotImplementedError", VClass (CB C_NotImplementedError));
    ("isinstance", VBuiltin B_isinstance); ("print", VBuiltin B_print);
    ("sum", VBuiltin B_sum); ("all", VBuiltin B_all) ].

Definition assoc {A} (k : string) (table : list (string * A)) : option A :=
  snd <$> List.find (λ p, String.eqb (fst p) k) table.

(** Reading a name at module level: the module namespace, then the
    built-ins, else [NameError]. *)
Definition load_name (x : string) : M value := λ s,
  match globals s !! x with
  | Some v => (Normal v, s)
  | None =>
      match assoc x builtins_table with
      | Some v => (Normal v, s)
      | None => throw C_NameError ("name '" +:+ x +:+ "' is not defined") s
      end
  end.

Definition store_name (x : string) (v : value) : M unit := λ s,
  (Normal tt,
   {| globals := <[x := v]> (globals s); heap := heap s; stdout := stdout s |}).

(** The members of the three modules the script imports from.  Of
    [typing], the names the script imports and [Generic]; [Generic] and
    [Protocol] are classes, the rest are special objects known by name. *)
Definition typing_members : list string :=
  [ "List"; "Set"; "Dict"; "Tuple"; "NoReturn"; "TypeAlias"; "NewType";
    "TypedDict"; "Final"; "final"; "Literal"; "Any"; "ClassVar"; "Union";
    "Optional"; "TypeGuard"; "overload"; "Iterable"; "Callable";
    "Sequence"; "TypeVar" ].

Definition module_member (module name : string) : option value :=
  if String.eqb module "typing" then
    if String.eqb name "Generic" then Some (VClass (CB C_Generic))
    else if String.eqb name "Protocol" then Some (VClass (CB C_Protocol))
    else if bool_decide (name ∈ typing_members) then Some (VTyping name)
    else None
  else if String.eqb module "abc" then
    if String.eqb name "ABC" then Some (VClass (CB C_ABC)) else None
  else if String.eqb module "dataclasses" then
    if String.eqb name "dataclass" then Some (VBuiltin B_dataclass) else None
  else None.

(** [from module import n1, n2, ...] *)
Fixpoint import_from (module : string) (names : list string) : M unit :=
  match names with
  | [] => mret tt
  | n :: rest =>
      match module_member module n with
      | Some v => store_name n v;; import_from module rest
      | None => throw C_ImportError ("cannot import name '" +:+ n +:+ "'")
      end
  end.

(** ** Containers *)

Definition new_list (items : list value) : M value :=
  l ← alloc (OList items); mret (VObj l).

Definition new_dict (items : list (string * value)) : M value :=
  l ← alloc (ODict items); mret (VObj l).

(** [d[k] = v] on the item list: replace in place or append. *)
Fixpoint dict_set (k : string) (v : value) (items : list (string * value))
    : list (string * value) :=
  match items with
  | [] => [(k, v)]
  | (k', v') :: rest =>
      if String.eqb k k' then (k, v) :: rest else (k', v') :: dict_set k v rest
  end.

(** Equality of two hashable scalars, as a set compares its members. *)
Definition scalar_eqb (a b : value) : bool :=
  match as_num a, as_num b with
  | Some x, Some y => num_eqb x y
  | _, _ =>
      match a, b with
      | VStr x, VStr y | VBytes x, VBytes y => String.eqb x y
      | VNone, VNone => true
      | _, _ => false
      end
  end.

Definition set_insert (x : value) (items : list value) : list value :=
  if existsb (scalar_eqb x) items then items else items ++ [x].

(** A set display [{a, b, c}] of scalars. *)
Definition new_set (items : list value) : M value :=
  if forallb is_scalar items then
    l ← alloc (OSet (foldl (λ acc x, set_insert x acc) [] items));
    mret (VObj l)
  else stuck "sets of non-scalar values are not modelled".

(** [lst.append(x)] *)
Definition list_append (lst x : value) : M value :=
  match lst with
  | VObj l =>
      o ← deref l;
      match o with
      | OList items => update l (OList (items ++ [x]));; mret VNone
      | _ => throw C_AttributeError "object has no attribute 'append'"
      end
  | _ => throw C_AttributeError "object has no attribute 'append'"
  end.

(** [st.add(x)] *)
Definition set_add (st x : value) : M value :=
  match st with
  | VObj l =>
      o ← deref l;
      match o with
      | OSet items =>
          if is_scalar x then update l (OSet (set_insert x items));; mret VNone
          else stuck "sets of non-scalar values are not modelled"
      | _ => throw C_AttributeError "object has no attribute 'add'"
      end
  | _ => throw C_AttributeError "object has no attribute 'add'"
  end.

(** [d.values()] *)
Definition dict_values (d : value) : M value :=
  match d with
  | VObj l =>
      o ← deref l;
      match o with
      | ODict _ => mret (VDictValues l)
      | _ => throw C_AttributeError "object has no attribute 'values'"
      end
  | _ => throw C_AttributeError "object has no attribute 'values'"
  end.

Definition chars (s : string) : list value :=
  (λ c, VStr (String c EmptyString)) <$> list_ascii_of_string s.

Definition range_items (a b : Z) : list value :=
  (λ i, VInt (a + Z.of_nat i)) <$> seq 0 (Z.to_nat (b - a)).

(** The items an iteration over [v] visits, in order. *)
Definition py_iter (v : value) : M (list value) :=
  match v with
  | VTuple items => mret items
  | VStr s => mret (chars s)
  | VBytes s => mret ((λ c, VInt (Z.of_N (N_of_ascii c))) <$> list_ascii_of_string s)
  | VRange a b => mret (range_items a b)
  | VObj l =>
      o ← deref l;
      match o with
      | OList items | OSet items => mret items
      | ODict items => mret ((λ p, VStr (fst p)) <$> items)
      | _ => throw C_TypeError "object is not iterable"
      end
  | VDictValues l =>
      o ← deref l;
      match o with
      | ODict items => mret (snd <$> items)
      | _ => stuck "ill-formed dictionary view"
      end
  | _ => throw C_TypeError "object is not iterable"
  end.

(** [sum(v)]: start at [0], add the items from left to right. *)
Fixpoint sum_from (acc : value) (items : list value) : M value :=
  match items with
  | [] => mret acc
  | x :: rest => acc' ← py_add acc x; sum_from acc' rest
  end.

Definition py_sum (v : value) : M value :=
  items ← py_iter v; sum_from (VInt 0) items.

Fixpoint strs_of (items : list value) : option (list string) :=
  match items with
  | [] => Some []
  | VStr s :: rest => (s ::.) <$> strs_of rest
  | _ :: _ => None
  end.

(** [sep.join(v)] for a [str] separator. *)
Definition py_join (sep v : value) : M value :=
  match sep with
  | VStr sp =>
      items ← py_iter v;
      match strs_of items with
      | Some parts => mret (VStr (str_join sp parts))
      | None => throw C_TypeError "sequence item: expected str instance"
      end
  | _ => stuck "join on a receiver other than str is not modelled"
  end.

(** ** Subscription *)

(** Python indexing: a negative index counts from the end. *)
Definition index_nth {A} (items : list A) (i : Z) : option A :=
  let n := Z.of_nat (length items) in
  let j := if i <? 0 then i + n else i in
  if (0 <=? j) && (j <? n) then items !! Z.to_nat j else None.

Definition index_seq (items : list value) (idx : value) : M value :=
  match as_index idx with
  | Some i =>
      match index_nth items i with
      | Some x => mret x
      | None => throw C_IndexError "index out of range"
      end
  | None => throw C_TypeError "indices must be integers or slices"
  end.

(** [X[a, b]] passes the tuple [(a, b)]; [X[a]] passes [a]. *)
Definition subscript_args (idx : value) : list value :=
  match idx with
  | VTuple items => items
  | _ => [idx]
  end.

(** The members of [typing] that accept [[...]].  The parameter counts
    and kinds [typing] checks are not modelled, except for [Generic]. *)
Definition typing_subscriptable : list string :=
  [ "List"; "Set"; "Dict"; "Tuple"; "Final"; "Literal"; "ClassVar"; "Union";
    "Optional"; "TypeGuard"; "Iterable"; "Callable"; "Sequence" ].

Definition is_typevar (v : value) : bool :=
  match v with VTypeVar _ _ _ => true | _ => false end.

(** [v[idx]] *)
Definition py_getitem (v idx : value) : M value :=
  match v with
  | VTuple items => index_seq items idx
  | VStr s => index_seq (chars s) idx
  | VRange a b => index_seq (range_items a b) idx
  | VObj l =>
      o ← deref l;
      match o with
      | OList items => index_seq items idx
      | ODict items =>
          match idx with
          | VStr k =>
              match assoc k items with
              | Some x => mret x
              | None => throw C_KeyError k
              end
          | _ => stuck "dictionary keys other than str are not modelled"
          end
      | OSet _ | OInstance _ _ => throw C_TypeError "object is not subscriptable"
      | OClass _ => stuck "ill-formed reference to a class"
      end
  | VTyping name =>
      if bool_decide (name ∈ typing_subscriptable)
      then mret (VAlias v (subscript_args idx))
      else throw C_TypeError "object is not subscriptable"
  | VClass (CB (C_list | C_tuple | C_dict | C_set | C_type)) =>
      mret (VAlias v (subscript_args idx))
  | VClass (CB (C_Generic | C_Protocol)) =>
      if forallb is_typevar (subscript_args idx)
      then mret (VAlias v (subscript_args idx))
      else throw C_TypeError "Parameters to Generic[...] must all be type variables"
  | VClass (CB _) => throw C_TypeError "'type' object is not subscriptable"
  | VClass (CU l) =>
      s ← get_state;
      match mro_of s (CU l) with
      | Some mro =>
          if bool_decide (CB C_Generic ∈ mro)
          then mret (VAlias v (subscript_args idx))
          else throw C_TypeError "'type' object is not subscriptable"
      | None => stuck "ill-formed reference to a class"
      end
  | VAlias _ _ | VBytes _ => stuck "this subscription is not modelled"
  | _ => throw C_TypeError "object is not subscriptable"
  end.

(** [v[idx] = x] *)
Definition py_setitem (v idx x : value) : M unit :=
  match v with
  | VObj l =>
      o ← deref l;
      match o with
      | OList items =>
          match as_index idx with
          | Some i =>
              let n := Z.of_nat (length items) in
              let j := if i <? 0 then i + n else i in
              if (0 <=? j) && (j <? n)
              then update l (OList (<[Z.to_nat j := x]> items))
              else throw C_IndexError "list assignment index out of range"
          | None => throw C_TypeError "list indices must be integers or slices"
          end
      | ODict items =>
          match idx with
          | VStr k => update l (ODict (dict_set k x items))
          | _ => stuck "dictionary keys other than str are not modelled"
          end
      | _ => throw C_TypeError "object does not support item assignment"
      end
  | _ => throw C_TypeError "object does not support item assignment"
  end.

(** ** Attributes *)

Definition class_dict (s : state) (c : cref) : gmap string value :=
  match c with
  | CU l => match heap s !! l with
            | Some (OClass k) => cls_attrs k
            | _ => ∅
            end
  | CB _ => ∅
  end.

Fixpoint lookup_mro (s : state) (mro : list cref) (name : string)
    : option value :=
  match mro with
  | [] => None
  | c :: rest =>
      match class_dict s c !! name with
      | Some v => Some v
      | None => lookup_mro s rest name
      end
  end.

(** The first class of the method resolution order that defines [name].
    Attributes of the pre-existing classes are not values of the model. *)
Definition class_lookup (s : state) (c : cref) (name : string) : option value :=
  mro ← mro_of s c; lookup_mro s mro name.

(** A function found on the class of an instance is bound to it. *)
Definition bind_method (self f : value) : value :=
  match f with
  | VFunction _ _ | VDataInit _ _ => VBound self f
  | _ => f
  end.

Definition is_private (name : string) : bool :=
  match name with
  | String "_" _ => true
  | _ => false
  end.

(** A miss: [AttributeError], unless the name could be one that [object]
    or another pre-existing base provides (these start with [_]). *)
Definition attribute_miss {A} (name : string) : M A :=
  if is_private name then stuck "attributes of built-in bases are not modelled"
  else throw C_AttributeError ("object has no attribute '" +:+ name +:+ "'").

(** [v.name]: the instance dictionary, then the classes of the MRO.  Of
    the built-in objects, the four methods the script calls. *)
Definition py_getattr (v : value) (name : string) : M value :=
  match v with
  | VObj l =>
      o ← deref l;
      match o with
      | OInstance c attrs =>
          match attrs !! name with
          | Some x => mret x
          | None =>
              s ← get_state;
              match class_lookup s c name with
              | Some f => mret (bind_method v f)
              | None => attribute_miss name
              end
          end
      | OList _ =>
          if String.eqb name "append" then mret (VMethod v name)
          else stuck "this attribute of a list is not modelled"
      | OSet _ =>
          if String.eqb name "add" then mret (VMethod v name)
          else stuck "this attribute of a set is not modelled"
      | ODict _ =>
          if String.eqb name "values" then mret (VMethod v name)
          else stuck "this attribute of a dict is not modelled"
      | OClass _ => stuck "ill-formed reference to a class"
      end
  | VStr _ =>
      if String.eqb name "join" then mret (VMethod v name)
      else stuck "this attribute of a str is not modelled"
  | VClass (CU l) =>
      s ← get_state;
      match class_lookup s (CU l) name with
      | Some x => mret x
      | None => attribute_miss name
      end
  | _ => stuck "attributes of this value are not modelled"
  end.

(** [v.name = x]: always the instance's own dictionary. *)
Definition py_setattr (v : value) (name : string) (x : value) : M unit :=
  match v with
  | VObj l =>
      o ← deref l;
      match o with
      | OInstance c attrs => update l (OInstance c (<[name := x]> attrs))
      | _ => throw C_AttributeError ("object has no attribute '" +:+ name +:+ "'")
      end
  | _ => stuck "attribute assignment on this value is not modelled"
  end.

(** ** Class statements *)

(** What a base expression contributes to the bases of a new class
    ([__mro_entries__]): a class stands for itself, a subscripted class
    [C[...]] for [C].  [TypedDict] is handled by [build_class]. *)
Definition base_entry (b : value) : option cref :=
  match b with
  | VClass c => Some c
  | VAlias (VClass c) _ => Some c
  | _ => None
  end.

Definition is_typeddict_base (s : state) (b : value) : bool :=
  match b with
  | VTyping name => String.eqb name "TypedDict"
  | VClass (CU l) =>
      match heap s !! l with
      | Some (OClass k) =>
          match cls_kind k with KTypedDict => true | _ => false end
      | _ => false
      end
  | _ => false
  end.

Definition base_annotations (s : state) (b : value) : list (string * value) :=
  match b with
  | VClass (CU l) =>
      match heap s !! l with
      | Some (OClass k) => cls_annotations k
      | _ => []
      end
  | _ => []
  end.

(** Replace the entry for [k] where it stands, or append one. *)
Fixpoint alist_set {A} (k : string) (v : A) (items : list (string * A))
    : list (string * A) :=
  match items with
  | [] => [(k, v)]
  | (k', v') :: rest =>
      if String.eqb k k' then (k, v) :: rest else (k', v') :: alist_set k v rest
  end.

Definition alist_merge {A} (base own : list (string * A)) : list (string * A) :=
  foldl (λ acc p, alist_set (fst p) (snd p) acc) base own.

(** The pre-existing classes a class of the script may derive from. *)
Definition plain_base (c : cref) : bool :=
  match c with
  | CU _ => true
  | CB (C_object | C_ABC | C_Generic | C_Protocol) => true
  | CB _ => false
  end.

(** A typed-dictionary class: its only base is [dict], and it collects
    the annotations of its typed-dictionary bases before its own. *)
Definition build_typeddict (name : string) (bases : list value)
    (kwds : list (string * value)) (annotations : list (string * value))
    : M value :=
  s ← get_state;
  if negb (forallb (is_typeddict_base s) bases) then
    throw C_TypeError
      "cannot inherit from both a TypedDict type and a non-TypedDict base class"
  else if negb (forallb (λ p, String.eqb (fst p) "total") kwds) then
    throw C_TypeError "__init_subclass__() takes no keyword arguments"
  else
    l ← alloc (OClass {|
      cls_name := name;
      cls_bases := [CB C_dict];
      cls_mro := [CU (length (heap s)); CB C_dict; CB C_object];
      cls_kind := KTypedDict;
      cls_attrs := ∅;
      cls_annotations :=
        alist_merge (foldl (λ acc b, alist_merge acc (base_annotations s b))
                           [] bases)
                    annotations;
      cls_fields := None |});
    mret (VClass (CU l)).

(** [class name(bases, **kwds): body], the body given by the attributes
    and the annotations it leaves in the class namespace.  The new class
    takes the next free address. *)
Definition build_class (name : string) (bases : list value)
    (kwds : list (string * value))
    (attrs : list (string * value)) (annotations : list (string * value))
    : M value :=
  s ← get_state;
  if existsb (is_typeddict_base s) bases then
    build_typeddict name bases kwds annotations
  else
    match mapM base_entry bases with
    | None => throw C_TypeError "bases must be types"
    | Some entries =>
        let entries := if bool_decide (entries = []) then [CB C_object] else entries in
        if negb (forallb plain_base entries) then
          stuck "deriving from this built-in class is not modelled"
        else if negb (bool_decide (kwds = [])) then
          throw C_TypeError "__init_subclass__() takes no keyword arguments"
        else
          match linearise s (CU (length (heap s))) entries with
          | None =>
              throw C_TypeError
                "Cannot create a consistent method resolution order (MRO)"
          | Some mro =>
              l ← alloc (OClass {|
                cls_name := name;
                cls_bases := entries;
                cls_mro := mro;
                cls_kind := if bool_decide (CB C_Protocol ∈ entries)
                            then KProtocol else KPlain;
                cls_attrs := list_to_map attrs;
                cls_annotations := annotations;
                cls_fields := None |});
              mret (VClass (CU l))
          end
    end.

(** ** [@dataclass] *)

Definition is_classvar (ann : value) : bool :=
  match ann with
  | VTyping name | VAlias (VTyping name) _ => String.eqb name "ClassVar"
  | _ => false
  end.

(** The fields of the dataclasses among the bases, from the far end of
    the MRO towards the class. *)
Definition inherited_fields (s : state) (mro : list cref)
    : list (string * option value) :=
  foldl (λ acc c,
           match c with
           | CU l =>
               match heap s !! l with
               | Some (OClass k) =>
                   match cls_fields k with
                   | Some fs => alist_merge acc fs
                   | None => acc
                   end
               | _ => acc
               end
           | CB _ => acc
           end)
        [] (reverse (tail mro)).

Definition is_mutable_default (s : state) (v : value) : bool :=
  match v with
  | VObj l =>
      match heap s !! l with
      | Some (OList _ | OSet _ | ODict _) => true
      | _ => false
      end
  | _ => false
  end.

(** The class's own fields: its annotations that are not [ClassVar],
    each with the class attribute of that name as default, if any. *)
Definition own_fields (s : state) (c : cref) (k : class_obj)
    : list (string * option value) :=
  omap (λ p, if is_classvar (snd p) then None
             else Some (fst p, class_lookup s c (fst p)))
       (cls_annotations k).

(** A parameter without default may not follow one with a default. *)
Fixpoint defaults_in_order (seen_default : bool)
    (fs : list (string * option value)) : bool :=
  match fs with
  | [] => true
  | (_, Some _) :: rest => defaults_in_order true rest
  | (_, None) :: rest => negb seen_default && defaults_in_order seen_default rest
  end.

(** [dataclass(cls)]: collect the fields, write [__init__], return the
    same class. *)
Definition dataclass_decorate (cls : value) : M value :=
  match cls with
  | VClass (CU l) =>
      o ← deref l;
      match o with
      | OClass k =>
          s ← get_state;
          let own := own_fields s (CU l) k in
          let fields := alist_merge (inherited_fields s (cls_mro k)) own in
          if existsb (λ p, from_option (is_mutable_default s) false (snd p)) own
          then throw C_ValueError "mutable default is not allowed: use default_factory"
          else if negb (defaults_in_order false fields)
          then throw C_TypeError "non-default argument follows default argument"
          else
            update l (OClass {|
              cls_name := cls_name k;
              cls_bases := cls_bases k;
              cls_mro := cls_mro k;
              cls_kind := cls_kind k;
              cls_attrs :=
                match cls_attrs k !! "__init__" with
                | Some _ => cls_attrs k
                | None => <["__init__" := VDataInit (cls_name k) fields]> (cls_attrs k)
                end;
              cls_annotations := cls_annotations k;
              cls_fields := Some fields |});;
            mret cls
      | _ => stuck "ill-formed reference to a class"
      end
  | _ => stuck "dataclass applied to something other than a class of the script"
  end.

(** ** Calls: binding arguments to parameters *)

Fixpoint for_each {A} (f : A → M unit) (items : list A) : M unit :=
  match items with
  | [] => mret tt
  | x :: rest => f x;; for_each f rest
  end.

(** Positional arguments fill the parameters from the left, keyword
    arguments by name, defaults the rest. *)
Definition bind_params (fname : string) (params : list (string * option value))
    (args : list value) (kwargs : list (string * value)) : M (list value) :=
  let names := fst <$> params in
  if bool_decide (length params < length args)%nat then
    throw C_TypeError (fname +:+ "() takes too many positional arguments")
  else if existsb (λ p, bool_decide (fst p ∈ take (length args) names)) kwargs then
    throw C_TypeError (fname +:+ "() got multiple values for an argument")
  else if existsb (λ p, bool_decide (fst p ∉ names)) kwargs then
    throw C_TypeError (fname +:+ "() got an unexpected keyword argument")
  else
    rest ← mapM (λ p : string * option value,
                   match assoc (fst p) kwargs with
                   | Some v => mret v
                   | None =>
                       match snd p with
                       | Some d => mret d
                       | None =>
                           throw C_TypeError
                             (fname +:+ "() missing a required argument: '"
                                    +:+ fst p +:+ "'")
                       end
                   end)
                (drop (length args) params);
    mret (args ++ rest).

(** The [__init__] of a dataclass stores each argument in the field of
    its name. *)
Definition data_init (owner : string) (params : list (string * option value))
    (args : list value) (kwargs : list (string * value)) : M value :=
  match args with
  | [] => throw C_TypeError "__init__() missing 1 required positional argument: 'self'"
  | self :: rest =>
      vs ← bind_params owner params rest kwargs;
      for_each (λ p : string * value, py_setattr self (fst p) (snd p))
               (zip (fst <$> params) vs);;
      mret VNone
  end.

(** ** Calls: built-in functions and [typing] *)

Definition class_kind_of (s : state) (c : cref) : class_kind :=
  match c with
  | CU l => match heap s !! l with
            | Some (OClass k) => cls_kind k
            | _ => KPlain
            end
  | CB C_Protocol => KProtocol
  | CB _ => KPlain
  end.

(** [all(v)] stops at the first false item. *)
Fixpoint all_true (items : list value) : M bool :=
  match items with
  | [] => mret true
  | x :: rest =>
      py_truthy x ≫= λ b : bool, if b then all_true rest else mret false
  end.

Definition call_builtin (b : builtin) (args : list value)
    (kwargs : list (string * value)) : M value :=
  match b, args, kwargs with
  | B_isinstance, [v; VClass c], [] =>
      s ← get_state;
      match class_kind_of s c with
      | KPlain => r ← py_isinstance v c; mret (VBool r)
      | KProtocol =>
          throw C_TypeError
            "Instance and class checks can only be used with @runtime_checkable protocols"
      | KTypedDict =>
          throw C_TypeError "TypedDict does not support instance and class checks"
      end
  | B_isinstance, [_; VTuple _], [] => stuck "isinstance with a tuple of classes is not modelled"
  | B_isinstance, [_; _], [] =>
      throw C_TypeError "isinstance() arg 2 must be a type, a tuple of types, or a union"
  | B_print, _, [] =>
      parts ← mapM py_str args;
      print_line (str_join " " parts);;
      mret VNone
  | B_sum, [v], [] => py_sum v
  | B_all, [v], [] => items ← py_iter v; r ← all_true items; mret (VBool r)
  | B_dataclass, [cls], [] => dataclass_decorate cls
  | B_overload_dummy, _, _ =>
      throw C_NotImplementedError
        "You should not call an overloaded function."
  | (B_print | B_dataclass), _, _ => stuck "this form of the call is not modelled"
  | _, _, _ => throw C_TypeError "wrong number of arguments"
  end.

(** Calling a member of [typing]: the constructors [TypeVar], [NewType]
    and [TypedDict], the decorators [overload] and [final].  The other
    members cannot be instantiated. *)
Definition call_typing (name : string) (args : list value)
    (kwargs : list (string * value)) : M value :=
  if String.eqb name "TypeVar" then
    match args with
    | VStr n :: constraints =>
        if negb (forallb (λ p, String.eqb (fst p) "bound") kwargs) then
          stuck "TypeVar options other than bound are not modelled"
        else
          match assoc "bound" kwargs, constraints with
          | Some _, _ :: _ =>
              throw C_TypeError "Constraints cannot be combined with bound=..."
          | _, [_] => throw C_TypeError "A single constraint is not allowed"
          | bound, _ => mret (VTypeVar n constraints bound)
          end
    | _ => stuck "TypeVar without a literal name is not modelled"
    end
  else if String.eqb name "NewType" then
    match args, kwargs with
    | [VStr n; tp], [] => mret (VNewType n tp)
    | _, _ => stuck "this form of NewType is not modelled"
    end
  else if String.eqb name "TypedDict" then
    match args with
    | [VStr n] =>
        build_typeddict n [] []
          (List.filter (λ p, negb (String.eqb (fst p) "total")) kwargs)
    | _ => stuck "this form of TypedDict is not modelled"
    end
  else if String.eqb name "overload" then
    match args, kwargs with
    | [_], [] => mret (VBuiltin B_overload_dummy)
    | _, _ => throw C_TypeError "overload() takes exactly one argument"
    end
  else if String.eqb name "final" then
    match args, kwargs with
    | [f], [] => mret f
    | _, _ => throw C_TypeError "final() takes exactly one argument"
    end
  else throw C_TypeError ("Type " +:+ name +:+ " cannot be instantiated").

(** The four methods of built-in objects. *)
Definition call_method (self : value) (name : string) (args : list value)
    (kwargs : list (string * value)) : M value :=
  match args, kwargs with
  | [x], [] =>
      if String.eqb name "append" then list_append self x
      else if String.eqb name "add" then set_add self x
      else if String.eqb name "join" then py_join self x
      else throw C_TypeError (name +:+ "() takes no arguments")
  | [], [] =>
      if String.eqb name "values" then dict_values self
      else throw C_TypeError (name +:+ "() takes exactly one argument")
  | _, _ => throw C_TypeError (name +:+ "(): wrong arguments")
  end.

(** ** Calls: classes *)

Abbreviation callable := (value → list value → list (string * value) → M value).

(** Calling a class.  An instance of a class of the script is
    allocated empty and handed to the first [__init__] of the MRO. *)
Definition instantiate (call : callable) (c : cref) (args : list value)
    (kwargs : list (string * value)) : M value :=
  match c with
  | CB b =>
      if is_exception_class b then
        if bool_decide (kwargs = []) then new_exception c args
        else throw C_TypeError (bclass_name b +:+ "() takes no keyword arguments")
      else
        match b, as_index <$> args, kwargs with
        | C_range, [Some n], [] => mret (VRange 0 n)
        | C_range, [Some a; Some b], [] => mret (VRange a b)
        | _, _, _ => stuck "the constructor of this built-in class is not modelled"
        end
  | CU l =>
      o ← deref l;
      match o with
      | OClass k =>
          match cls_kind k with
          | KProtocol => throw C_TypeError "Protocols cannot be instantiated"
          | KTypedDict =>
              if bool_decide (args = []) then new_dict kwargs
              else stuck "this form of the TypedDict constructor is not modelled"
          | KPlain =>
              self ← alloc (OInstance c ∅);
              s ← get_state;
              match class_lookup s c "__init__" with
              | Some init =>
                  r ← call init (VObj self :: args) kwargs;
                  match r with
                  | VNone => mret (VObj self)
                  | _ => throw C_TypeError "__init__() should return None"
                  end
              | None =>
                  if bool_decide (args = []) && bool_decide (kwargs = [])
                  then mret (VObj self)
                  else throw C_TypeError (cls_name k +:+ "() takes no arguments")
              end
          end
      | _ => stuck "ill-formed reference to a class"
      end
  end.

(** ** Statements and expressions used by the function bodies *)

(** [raise v]: an exception instance is raised as it is, an exception
    class is instantiated first; anything else is a [TypeError]. *)
Definition py_raise {A} (v : value) : M A :=
  match v with
  | VClass (CB b) =>
      if is_exception_class b
      then e ← new_exception (CB b) []; raise_value e
      else throw C_TypeError "exceptions must derive from BaseException"
  | VObj l =>
      s ← get_state;
      match instance_of s v (CB C_BaseException) with
      | Some true => raise_value v
      | _ => throw C_TypeError "exceptions must derive from BaseException"
      end
  | _ => throw C_TypeError "exceptions must derive from BaseException"
  end.

(** [print(...)].  The functions of the script name built-ins ([print],
    [isinstance], [sum], [all], [list], [str]) that the module never
    rebinds, so their bodies use the built-in directly. *)
Definition py_print (args : list value) : M value := call_builtin B_print args [].

Definition is_none (v : value) : bool :=
  match v with VNone => true | _ => false end.

(** [[f(x) for x in v]]: a new list, filled item by item. *)
Definition list_comp (f : value → M value) (v : value) : M value :=
  items ← py_iter v;
  out ← new_list [];
  for_each (λ x, r ← f x; list_append out r;; mret tt) items;;
  mret out.

(** [all(f(x) for x in v)]: the generator is consumed up to the first
    false item. *)
Fixpoint all_of (f : value → M value) (items : list value) : M bool :=
  match items with
  | [] => mret true
  | x :: rest =>
      r ← f x;
      py_truthy r ≫= λ b : bool, if b then all_of f rest else mret false
  end.

(** [try: body / except cls: handler].  The expression after [except]
    is evaluated when an exception arrives. *)
Definition try_except {A} (body : M A) (cls : M value) (handler : value → M A)
    : M A := λ s,
  match body s with
  | (Raised e, s') =>
      match cls s' with
      | (Normal (VClass c), s'') =>
          match instance_of s'' e c with
          | Some true => handler e s''
          | _ => (Raised e, s'')
          end
      | (Normal _, s'') =>
          throw C_TypeError
            "catching classes that do not inherit from BaseException is not allowed"
            s''
      | (Raised e', s'') => (Raised e', s'')
      | (Stuck w, s'') => (Stuck w, s'')
      end
  | r => r
  end.

(** [assert v] *)
Definition py_assert (v : value) : M unit :=
  py_truthy v ≫= λ b : bool,
    if b then mret tt else e ← new_exception (CB C_AssertionError) []; raise_value e.

(** ** The functions of the script

    Each definition carries the name of the function it translates and
    the line of its [def]. *)

(** line 96, [PaymentSystem.pay] *)
Definition PaymentSystem_pay (self : value) : M value :=
  e ← new_exception (CB C_NotImplementedError) [];
  py_raise e.

(** line 101, [DebitPaymentSystem.pay] *)
Definition DebitPaymentSystem_pay (self : value) : M value :=
  py_print [VStr "You are paying with Debit"];;
  mret VNone.

(** line 132, the first [multiply] *)
Definition multiply_l132 (a b : value) : M value :=
  py_mul a b.

(** line 143 *)
Definition hello_world : M value :=
  py_print [VStr "Hello World"];;
  mret VNone.

(** line 151 *)
Definition raise_exception (exception : value) : M value :=
  n ← py_class_name exception;
  py_print [VStr (n +:+ " was thrown!")];;
  py_raise exception.

(** line 179 *)
Definition show_vehicle (vehicle : value) : M value :=
  speed ← py_getattr vehicle "speed" ≫= py_str;
  color ← py_getattr vehicle "color" ≫= py_str;
  py_print [VStr ("This vehicle can go to " +:+ speed +:+ " and is " +:+ color)];;
  mret VNone.

(** line 183 *)
Definition show_truck (truck : value) : M value :=
  speed ← py_getattr truck "speed" ≫= py_str;
  color ← py_getattr truck "color" ≫= py_str;
  py_print [VStr ("This truck can go to " +:+ speed +:+ " and is " +:+ color)];;
  mret VNone.

(** line 243 *)
Definition is_user_valid (user_id : value) : M value :=
  u ← py_str user_id;
  mret (VStr ("Welcome " +:+ u +:+ "!")).

(** line 356, [Citizen.get_summary] *)
Definition Citizen_get_summary (self : value) : M value :=
  name ← py_getattr self "name" ≫= py_str;
  tax_id ← py_getattr self "tax_id" ≫= py_str;
  mret (VStr ("Citizen data: " +:+ name +:+ " - " +:+ tax_id)).

(** line 364, [Diplomat.get_summary] *)
Definition Diplomat_get_summary (self : value) : M value :=
  country ← py_getattr self "country" ≫= py_str;
  mret (VStr ("This diplomat represents " +:+ country)).

(** line 419, [Car.set_pretol_price] *)
Definition Car_set_pretol_price (self value' : value) : M value :=
  py_setattr self "petrol_price" value';;
  mret VNone.

(** line 449 *)
Definition double (number : value) : M value :=
  py_isinstance number (CB C_list) ≫= λ is_list : bool,
    if is_list then list_comp (λ x, py_mul x (VInt 2)) number
    else py_mul number (VInt 2).

(** line 463 *)
Definition double_alternative (number : value) : M value :=
  py_isinstance number (CB C_list) ≫= λ is_list : bool,
    if is_list then list_comp (λ x, py_mul x (VInt 2)) number
    else py_mul number (VInt 2).

(** line 477 *)
Definition greetings (name : value) : M value :=
  (if is_none name then py_print [VStr "No name"] else mret VNone);;
  n ← py_str name;
  py_print [VStr ("Welcome " +:+ n +:+ ".")];;
  mret VNone.

(** line 494 *)
Definition greetings_alternative (name : value) : M value :=
  (if is_none name then py_print [VStr "No name"] else mret VNone);;
  n ← py_str name;
  py_print [VStr ("Welcome " +:+ n +:+ ".")];;
  mret VNone.

(** line 508 *)
Definition get_scores : M value :=
  new_list [VFloat 4.5; VFloat 0.6].

(** line 530 *)
Definition convertable_to_string (value' : value) : M value :=
  items ← py_iter value';
  r ← all_of (λ x, b ← py_isinstance x (CB C_str); mret (VBool b)) items;
  mret (VBool r).

(** lines 551 and 556: the two overload stubs, whose body is [...] *)
Definition triple_stub (number : value) : M value :=
  mret VNone.

(** line 560 *)
Definition triple (number : value) : M value :=
  py_isinstance number (CB C_list) ≫= λ is_list : bool,
    if is_list then list_comp (λ x, py_mul x (VInt 3)) number
    else py_mul number (VInt 3).

(** lines 584, 595 and 611: three functions with the body [sum(values)] *)
Definition sum_all_elements (values : value) : M value :=
  py_sum values.

Definition sum_all_elements_2_l595 (values : value) : M value :=
  py_sum values.

Definition sum_all_elements_2 (values : value) : M value :=
  py_sum values.

(** line 631, [StreamingSystem.play], whose body is [...] *)
Definition StreamingSystem_play (self : value) : M value :=
  mret VNone.

(** line 636, [WebStreamingSystem.play] *)
Definition WebStreamingSystem_play (self : value) : M value :=
  py_print [VStr "You are playing from the website"];;
  mret VNone.

(** line 655; [call] is the call operator of the interpreter *)
Definition map_function (call : callable) (function elements : value) : M value :=
  list_comp (λ element, call function [element] []) elements.

(** line 661 *)
Definition double_def (x : value) : M value :=
  py_mul x (VInt 2).

(** line 666, [Doubler.__call__] *)
Definition Doubler_call (self value' : value) : M value :=
  py_mul value' (VInt 2).

(** line 673, [lambda x: x * 2] *)
Definition lambda_l673 (x : value) : M value :=
  py_mul x (VInt 2).

(** line 682; [args] is the tuple of positional arguments, [kwargs] the
    dictionary of keyword arguments *)
Definition summation (args kwargs : value) : M value :=
  a ← py_sum args;
  b ← dict_values kwargs ≫= py_sum;
  py_add a b.

(** line 695, the inner function of [multiply]; [x] is its free variable *)
Definition helper (x : value) (y : value) : M value :=
  py_mul x y.

(** line 694, the second [multiply]: returns [helper] closed over [x].
    The annotations of [helper] name only the built-in [float]. *)
Definition multiply (x : value) : M value :=
  mret (VFunction c_helper [x]).

(** line 722 *)
Definition first_union (values : value) : M value :=
  py_getitem values (VInt 0).

(** line 743 *)
Definition first_typevar (values : value) : M value :=
  py_getitem values (VInt 0).

(** line 761 *)
Definition first_typevar_constrained (values : value) : M value :=
  py_getitem values (VInt 0).

(** line 785 *)
Definition first_typevar_bounded (values : value) : M value :=
  py_getitem values (VInt 0).

(** line 839, [WebCamStreamingService.show_quality] *)
Definition WebCamStreamingService_show_quality (self : value) : M value :=
  config ← py_getattr self "config";
  py_getattr config "quality".

(** ** The call operator *)

(** The parameter names of each function, in order ([summation] takes
    star-arguments and is bound separately). *)
Definition signature (c : code) : list string :=
  match c with
  | c_hello_world | c_get_scores | c_summation => []
  | c_multiply_l132 => ["a"; "b"]
  | c_raise_exception => ["exception"]
  | c_show_vehicle => ["vehicle"]
  | c_show_truck => ["truck"]
  | c_is_user_valid => ["user_id"]
  | c_PaymentSystem_pay | c_DebitPaymentSystem_pay
  | c_Citizen_get_summary | c_Diplomat_get_summary
  | c_StreamingSystem_play | c_WebStreamingSystem_play
  | c_WebCamStreamingService_show_quality => ["self"]
  | c_Car_set_pretol_price | c_Doubler_call => ["self"; "value"]
  | c_double | c_double_alternative
  | c_triple_l551 | c_triple_l556 | c_triple => ["number"]
  | c_greetings | c_greetings_alternative => ["name"]
  | c_convertable_to_string => ["value"]
  | c_sum_all_elements | c_sum_all_elements_2_l595 | c_sum_all_elements_2
  | c_first_union | c_first_typevar
  | c_first_typevar_constrained | c_first_typevar_bounded => ["values"]
  | c_map_function => ["function"; "elements"]
  | c_double_def | c_lambda_l673 | c_multiply => ["x"]
  | c_helper => ["y"]
  end.

(** The body of a code object applied to its bound arguments and the
    values of its free variables. *)
Definition run_body (call : callable) (c : code) (closure vs : list value)
    : M value :=
  match c, closure, vs with
  | c_PaymentSystem_pay, [], [self] => PaymentSystem_pay self
  | c_DebitPaymentSystem_pay, [], [self] => DebitPaymentSystem_pay self
  | c_multiply_l132, [], [a; b] => multiply_l132 a b
  | c_hello_world, [], [] => hello_world
  | c_raise_exception, [], [exception] => raise_exception exception
  | c_show_vehicle, [], [vehicle] => show_vehicle vehicle
  | c_show_truck, [], [truck] => show_truck truck
  | c_is_user_valid, [], [user_id] => is_user_valid user_id
  | c_Citizen_get_summary, [], [self] => Citizen_get_summary self
  | c_Diplomat_get_summary, [], [self] => Diplomat_get_summary self
  | c_Car_set_pretol_price, [], [self; v] => Car_set_pretol_price self v
  | c_double, [], [number] => double number
  | c_double_alternative, [], [number] => double_alternative number
  | c_greetings, [], [name] => greetings name
  | c_greetings_alternative, [], [name] => greetings_alternative name
  | c_get_scores, [], [] => get_scores
  | c_convertable_to_string, [], [v] => convertable_to_string v
  | (c_triple_l551 | c_triple_l556), [], [number] => triple_stub number
  | c_triple, [], [number] => triple number
  | c_sum_all_elements, [], [values] => sum_all_elements values
  | c_sum_all_elements_2_l595, [], [values] => sum_all_elements_2_l595 values
  | c_sum_all_elements_2, [], [values] => sum_all_elements_2 values
  | c_StreamingSystem_play, [], [self] => StreamingSystem_play self
  | c_WebStreamingSystem_play, [], [self] => WebStreamingSystem_play self
  | c_map_function, [], [function; elements] => map_function call function elements
  | c_double_def, [], [x] => double_def x
  | c_Doubler_call, [], [self; v] => Doubler_call self v
  | c_lambda_l673, [], [x] => lambda_l673 x
  | c_summation, [], [args; kwargs] => summation args kwargs
  | c_multiply, [], [x] => multiply x
  | c_helper, [x], [y] => helper x y
  | c_first_union, [], [values] => first_union values
  | c_first_typevar, [], [values] => first_typevar values
  | c_first_typevar_constrained, [], [values] => first_typevar_constrained values
  | c_first_typevar_bounded, [], [values] => first_typevar_bounded values
  | c_WebCamStreamingService_show_quality, [], [self] =>
      WebCamStreamingService_show_quality self
  | _, _, _ => stuck "ill-formed function object"
  end.

Definition run_code (call : callable) (c : code) (closure args : list value)
    (kwargs : list (string * value)) : M value :=
  match c with
  | c_summation =>
      d ← new_dict kwargs;
      run_body call c closure [VTuple args; d]
  | _ =>
      vs ← bind_params "function" ((λ n, (n, None)) <$> signature c) args kwargs;
      run_body call c closure vs
  end.

(** [f(args, kwargs)].  The fuel bounds the depth of nested calls. *)
Fixpoint call (fuel : nat) (f : value) (args : list value)
    (kwargs : list (string * value)) : M value :=
  match fuel with
  | O => stuck "out of fuel"
  | S fuel' =>
      match f with
      | VFunction c closure => run_code (call fuel') c closure args kwargs
      | VBound self g => call fuel' g (self :: args) kwargs
      | VDataInit owner params => data_init owner params args kwargs
      | VBuiltin b => call_builtin b args kwargs
      | VMethod self name => call_method self name args kwargs
      | VClass c => instantiate (call fuel') c args kwargs
      | VTyping name => call_typing name args kwargs
      | VNewType _ _ =>
          match args, kwargs with
          | [x], [] => mret x
          | _, _ => throw C_TypeError "NewType takes exactly one argument"
          end
      | VObj l =>
          s ← get_state;
          match type_of s f ≫= λ c, class_lookup s c "__call__" with
          | Some g => call fuel' g (f :: args) kwargs
          | None => throw C_TypeError "object is not callable"
          end
      | _ => throw C_TypeError "object is not callable"
      end
  end.

(** [v | w]: bitwise on integers; on classes and typing objects it
    builds the union type. *)
Definition is_type_like (v : value) : bool :=
  match v with
  | VNone | VClass _ | VTyping _ | VAlias _ _ | VTypeVar _ _ _ | VNewType _ _ => true
  | _ => false
  end.

Definition py_or (v w : value) : M value :=
  match v, w with
  | VBool a, VBool b => mret (VBool (a || b))
  | VNone, VNone => throw C_TypeError "unsupported operand type(s) for |"
  | VObj _, _ | _, VObj _ => stuck "| on containers is not modelled"
  | _, _ =>
      match as_index v, as_index w with
      | Some a, Some b => mret (VInt (Z.lor a b))
      | _, _ =>
          if is_type_like v && is_type_like w
          then mret (VAlias (VTyping "Union") [v; w])
          else throw C_TypeError "unsupported operand type(s) for |"
      end
  end.

(** ** Module-level expressions and statements

    Expressions are actions that yield a value; names are read from the
    module namespace when the action runs. *)

Abbreviation expr := (M value).

Definition name_ (x : string) : expr := load_name x.
Definition const (v : value) : expr := mret v.
Definition float_ (x : float) : expr := mret (VFloat x).
Definition int_ (n : Z) : expr := mret (VInt n).
Definition str_ (s : string) : expr := mret (VStr s).

(** Operands are evaluated from left to right. *)
Definition eval_all (es : list expr) : M (list value) := mapM id es.

Definition eval_keywords (ks : list (string * expr)) : M (list (string * value)) :=
  mapM (λ p : string * expr, v ← snd p; mret (fst p, v)) ks.

Definition tuple_ (es : list expr) : expr := vs ← eval_all es; mret (VTuple vs).
Definition list_ (es : list expr) : expr := eval_all es ≫= new_list.
Definition set_ (es : list expr) : expr := eval_all es ≫= new_set.
Definition dict_ (ks : list (string * expr)) : expr := eval_keywords ks ≫= new_dict.

Definition subscript (e idx : expr) : expr := v ← e; i ← idx; py_getitem v i.
Definition attribute (e : expr) (a : string) : expr := v ← e; py_getattr v a.
Definition mul_ (a b : expr) : expr := v ← a; w ← b; py_mul v w.
Definition add_ (a b : expr) : expr := v ← a; w ← b; py_add v w.
Definition eq_ (a b : expr) : expr := v ← a; w ← b; py_eq v w.
Definition or_ (a b : expr) : expr := v ← a; w ← b; py_or v w.

(** [f(args, keywords)]: the callee first, then the arguments. *)
Definition call_ (fuel : nat) (f : expr) (args : list expr)
    (keywords : list (string * expr)) : expr :=
  fv ← f;
  vs ← eval_all args;
  ks ← eval_keywords keywords;
  call fuel fv vs ks.

Abbreviation stmt := (M unit).

(** [x = e] *)
Definition assign (x : string) (e : expr) : stmt := v ← e; store_name x v.

(** [x: ann = e]: the value is bound first, then the annotation is
    evaluated. *)
Definition ann_assign (x : string) (ann e : expr) : stmt :=
  v ← e; store_name x v;; ann;; mret tt.

(** [x: ann], no value *)
Definition annotate (x : string) (ann : expr) : stmt := ann;; mret tt.

(** An expression statement. *)
Definition do_ (e : expr) : stmt := e;; mret tt.

(** [target[idx] = e] and [target.a = e]: the right-hand side first. *)
Definition set_item (target idx e : expr) : stmt :=
  v ← e; t ← target; i ← idx; py_setitem t i v.

Definition set_attr (target : expr) (a : string) (e : expr) : stmt :=
  v ← e; t ← target; py_setattr t a v.

(** [x1, x2, ... = e] *)
Definition unpack_assign (targets : list string) (e : expr) : stmt :=
  v ← e;
  items ← py_iter v;
  if bool_decide (length items = length targets)
  then for_each (λ p : string * value, store_name (fst p) (snd p)) (zip targets items)
  else throw C_ValueError "wrong number of values to unpack".

Definition assert_ (e : expr) : stmt := e ≫= py_assert.

(** [if e: body], no [else] *)
Definition if_ (e : expr) (body : stmt) : stmt :=
  v ← e; py_truthy v ≫= λ b : bool, if b then body else mret tt.

(** [from module import names] *)
Definition from_import (module : string) (names : list string) : stmt :=
  import_from module names.

(** Decorators are applied from the one nearest to the definition
    outwards. *)
Fixpoint decorate (fuel : nat) (decorators : list value) (v : value) : M value :=
  match decorators with
  | [] => mret v
  | d :: outer_first =>
      v' ← decorate fuel outer_first v;
      call fuel d [v'] []
  end.

(** [@decorators / def x(...) -> ...: body].  The decorators are
    evaluated, then the annotations of the signature; the function
    object has the code [c]. *)
Definition def_ (fuel : nat) (decorators : list expr) (x : string)
    (annotations : list expr) (c : code) : stmt :=
  ds ← eval_all decorators;
  eval_all annotations;;
  f ← decorate fuel ds (VFunction c []);
  store_name x f.

(** What a class body leaves behind: attributes and annotations. *)
Record namespace : Type := Namespace {
  ns_attrs : list (string * value);
  ns_annotations : list (string * value)
}.

(** The statements of a class body. *)
Inductive member : Type :=
| Field (x : string) (ann : expr)                     (* x: ann *)
| FieldDefault (x : string) (ann : expr) (e : expr)   (* x: ann = e *)
| Method (decorators : list expr) (x : string) (annotations : list expr) (c : code)
| Pass.                                               (* the statement [...] *)

Definition ns_bind (x : string) (v : value) (ns : namespace) : namespace :=
  {| ns_attrs := alist_set x v (ns_attrs ns); ns_annotations := ns_annotations ns |}.

Definition ns_annotate (x : string) (a : value) (ns : namespace) : namespace :=
  {| ns_attrs := ns_attrs ns; ns_annotations := alist_set x a (ns_annotations ns) |}.

(** The body runs top to bottom.  No body of the script reads a name it
    has bound itself, so names are read from the module namespace. *)
Fixpoint class_body (fuel : nat) (members : list member) (ns : namespace)
    : M namespace :=
  match members with
  | [] => mret ns
  | Field x ann :: rest =>
      a ← ann;
      class_body fuel rest (ns_annotate x a ns)
  | FieldDefault x ann e :: rest =>
      v ← e;
      a ← ann;
      class_body fuel rest (ns_annotate x a (ns_bind x v ns))
  | Method decorators x annotations c :: rest =>
      ds ← eval_all decorators;
      eval_all annotations;;
      f ← decorate fuel ds (VFunction c []);
      class_body fuel rest (ns_bind x f ns)
  | Pass :: rest => class_body fuel rest ns
  end.

Definition empty_namespace : namespace :=
  {| ns_attrs := []; ns_annotations := [] |}.

(** [@decorators / class x(bases, keywords): body] *)
Definition class_ (fuel : nat) (decorators : list expr) (x : string)
    (bases : list expr) (keywords : list (string * expr))
    (members : list member) : stmt :=
  ds ← eval_all decorators;
  bs ← eval_all bases;
  ks ← eval_keywords keywords;
  ns ← class_body fuel members empty_namespace;
  c ← build_class x bs ks (ns_attrs ns) (ns_annotations ns);
  c' ← decorate fuel ds c;
  store_name x c'.

(** Common annotation shapes. *)
Definition sub1 (head : string) (arg : expr) : expr := subscript (name_ head) arg.
Definition sub2 (head : string) (a b : expr) : expr :=
  subscript (name_ head) (tuple_ [a; b]).

(** ** The module, section by section

    Each statement is followed by the line it translates.  [fuel] bounds
    the depth of the calls a statement makes. *)

Section Script.

Variable fuel : nat.

(** 1. Basic Typing *)
Definition section_1 : stmt :=
  ann_assign "numbers_integer" (name_ "int") (int_ 10);;                 (* 32 *)
  ann_assign "numbers_float" (name_ "float") (float_ 10.0);;             (* 33 *)
  ann_assign "numbers_integer_with_float" (name_ "int") (float_ 10.0);;  (* 34 *)
  ann_assign "name" (name_ "str") (str_ "John");;                        (* 36 *)
  ann_assign "name_stream" (name_ "bytes") (const (VBytes "John"));;     (* 37 *)
  ann_assign "complex_solution" (name_ "complex")
    (add_ (int_ 2) (const (VComplex 0 4)));;                             (* 39 *)
  ann_assign "base_object" (name_ "object") (str_ "Hello");;             (* 41 *)
  from_import "typing" ["List"; "Set"; "Dict"; "Tuple"];;                (* 47 *)
  ann_assign "marks" (sub1 "List" (name_ "float"))
    (list_ [float_ 4.2; float_ 7.6; float_ 2.5]);;                       (* 50 *)
  do_ (call_ fuel (attribute (name_ "marks") "append") [str_ "John"] []);;  (* 51 *)
  ann_assign "students" (sub1 "Set" (name_ "str"))
    (set_ [str_ "John"; str_ "Mary"; str_ "David"]);;                    (* 53 *)
  do_ (call_ fuel (attribute (name_ "students") "add") [int_ 4] []);;       (* 54 *)
  ann_assign "point" (sub2 "Tuple" (name_ "float") (name_ "float"))
    (tuple_ [float_ 1.5; float_ 2.5]);;                                  (* 56 *)
  assign "point" (tuple_ [float_ 0.5; float_ 4.5]);;                     (* 57 *)
  assign "point" (tuple_ [float_ 0.5; float_ 4.5; float_ 1.0]);;         (* 58 *)
  ann_assign "any_length_tuple"
    (sub2 "Tuple" (name_ "float") (const VEllipsis))
    (tuple_ [float_ 0.5; float_ 4.5; float_ 1.0]);;                      (* 60 *)
  assign "any_length_tuple"
    (tuple_ [float_ 0.5; float_ 4.5; float_ 1.0; float_ 5.0]);;          (* 61 *)
  assign "any_length_tuple"
    (tuple_ [float_ 0.5; float_ 4.5; float_ 1.0; str_ "5.0"]);;          (* 62 *)
  ann_assign "poly_line"
    (sub1 "List" (sub2 "Tuple" (name_ "float") (name_ "float")))
    (list_ [tuple_ [float_ 0.0; float_ 0.0]; tuple_ [float_ 1.5; float_ 1.5]]);;  (* 64 *)
  do_ (call_ fuel (attribute (name_ "poly_line") "append")
         [tuple_ [float_ 3.0; float_ 1.5]] []);;                         (* 65 *)
  do_ (call_ fuel (attribute (name_ "poly_line") "append")
         [list_ [float_ 4.0; float_ 0.5]] []);;                          (* 66 *)
  ann_assign "students_marks" (sub2 "Dict" (name_ "str") (name_ "int"))
    (dict_ []);;                                                         (* 68 *)
  set_item (name_ "students_marks") (str_ "Mary") (int_ 9);;             (* 69 *)
  set_item (name_ "students_marks") (str_ "John") (float_ 6.5);;         (* 70 *)
  annotate "first_in_tuple" (name_ "float");;                            (* 75 *)
  annotate "second_in_tuple" (name_ "float");;                           (* 76 *)
  unpack_assign ["first_in_tuple"; "second_in_tuple"]
    (tuple_ [float_ 0.5; float_ 4.5]);;                                  (* 77 *)
  ann_assign "point_2" (sub2 "tuple" (name_ "float") (name_ "float"))
    (tuple_ [float_ 1.5; float_ 2.5]);;                                  (* 82 *)
  ann_assign "poly_line_2"
    (sub1 "list" (sub2 "tuple" (name_ "float") (name_ "float")))
    (list_ [tuple_ [float_ 0.0; float_ 0.0]; tuple_ [float_ 1.5; float_ 1.5]]);;  (* 83 *)
  ann_assign "students_marks" (sub2 "dict" (name_ "str") (name_ "int"))
    (dict_ []).                                                          (* 84 *)

(** 2. Classes and Inheritance *)
Definition section_2 : stmt :=
  from_import "abc" ["ABC"];;                                            (* 92 *)
  class_ fuel [] "PaymentSystem" [name_ "ABC"] []                        (* 95 *)
    [ Method [] "pay" [const VNone] c_PaymentSystem_pay ];;              (* 96 *)
  class_ fuel [] "DebitPaymentSystem" [name_ "PaymentSystem"] []         (* 100 *)
    [ Method [] "pay" [const VNone] c_DebitPaymentSystem_pay ];;         (* 101 *)
  ann_assign "payment" (name_ "PaymentSystem")
    (call_ fuel (name_ "DebitPaymentSystem") [] []);;                    (* 105 *)
  do_ (call_ fuel (attribute (name_ "payment") "pay") [] []).            (* 106 *)

(** 3. Automatic Type Inference *)
Definition section_3 : stmt :=
  assign "teachers" (list_ [str_ "Andrew"; str_ "Alex"; str_ "Jason"]);; (* 114 *)
  do_ (call_ fuel (attribute (name_ "teachers") "append") [float_ 7.5] []);;  (* 115 *)
  assign "participants_scores" (list_ []);;                              (* 119 *)
  do_ (call_ fuel (attribute (name_ "participants_scores") "append")
         [float_ 5.0] []);;                                              (* 120 *)
  ann_assign "participants_scores_alt" (sub1 "List" (name_ "float"))
    (list_ []);;                                                         (* 123 *)
  do_ (call_ fuel (attribute (name_ "participants_scores_alt") "append")
         [float_ 5.0] []).                                               (* 124 *)

(** 4. Functions: the definitions *)
Definition section_4_functions : stmt :=
  def_ fuel [] "multiply"
    [name_ "float"; name_ "float"; name_ "float"] c_multiply_l132;;      (* 132 *)
  do_ (call_ fuel (name_ "multiply") [int_ 4; int_ 4] []);;              (* 136 *)
  do_ (call_ fuel (name_ "multiply") [str_ "a"; int_ 4] []);;            (* 137 *)
  def_ fuel [] "hello_world" [const VNone] c_hello_world;;               (* 143 *)
  from_import "typing" ["NoReturn"];;                                    (* 149 *)
  def_ fuel [] "raise_exception"
    [name_ "Exception"; name_ "NoReturn"] c_raise_exception.             (* 151 *)

(** lines 155 to 158: the call of [raise_exception] and its handler *)
Definition try_raise_exception : stmt :=
  try_except                                                             (* 155 *)
    (do_ (call_ fuel (name_ "raise_exception")
            [call_ fuel (name_ "ValueError") [] []] []))                 (* 156 *)
    (name_ "Exception")                                                  (* 157 *)
    (λ _, mret tt).                                                      (* 158 *)

(** 4. Functions *)
Definition section_4 : stmt :=
  section_4_functions;; try_raise_exception.

(** 5. Classes *)
Definition section_5 : stmt :=
  from_import "dataclasses" ["dataclass"];;                              (* 165 *)
  class_ fuel [name_ "dataclass"] "Vehicle" [] []                        (* 168 *)
    [ Field "speed" (name_ "float");                                     (* 170 *)
      Field "color" (name_ "str") ];;                                    (* 171 *)
  class_ fuel [name_ "dataclass"] "Truck" [name_ "Vehicle"] []           (* 174 *)
    [ Field "tare" (name_ "float") ];;                                   (* 176 *)
  def_ fuel [] "show_vehicle" [name_ "Vehicle"] c_show_vehicle;;         (* 179 *)
  def_ fuel [] "show_truck" [name_ "Truck"] c_show_truck;;               (* 183 *)
  assign "new_vehicle"
    (call_ fuel (name_ "Vehicle") []
       [("speed", int_ 140); ("color", str_ "Blue")]);;                  (* 187 *)
  assign "new_truck"
    (call_ fuel (name_ "Truck") []
       [("speed", int_ 90); ("color", str_ "Red"); ("tare", int_ 10)]);; (* 188 *)
  do_ (call_ fuel (name_ "show_vehicle") [name_ "new_vehicle"] []);;     (* 189 *)
  do_ (call_ fuel (name_ "show_vehicle") [name_ "new_truck"] []);;       (* 190 *)
  do_ (call_ fuel (name_ "show_truck") [name_ "new_truck"] []);;         (* 191 *)
  do_ (call_ fuel (name_ "show_truck") [name_ "new_vehicle"] []).        (* 192 *)

(** A pair of float literals. *)
Definition pair_ (x y : float) : expr := tuple_ [float_ x; float_ y].

(** 6. TypeAliases *)
Definition section_6 : stmt :=
  assign "Point2D" (sub2 "Tuple" (name_ "float") (name_ "float"));;      (* 200 *)
  assign "Triangle"
    (subscript (name_ "Tuple")
       (tuple_ [name_ "Point2D"; name_ "Point2D"; name_ "Point2D"]));;   (* 201 *)
  ann_assign "poligon" (name_ "Triangle")
    (tuple_ [pair_ 0.0 0.0; pair_ 0.0 1.0; pair_ 1.0 1.0]);;             (* 203 *)
  from_import "typing" ["TypeAlias"];;                                   (* 208 *)
  ann_assign "Pentagon" (name_ "TypeAlias")
    (subscript (name_ "Tuple")
       (tuple_ [name_ "Point2D"; name_ "Point2D"; name_ "Point2D";
                name_ "Point2D"; name_ "Point2D"]));;                    (* 212 *)
  ann_assign "house_polygon" (name_ "Pentagon")
    (tuple_ [pair_ 0.0 0.0; pair_ 4.0 0.0; pair_ 4.0 4.0;
             pair_ 2.0 6.0; pair_ 0.0 4.0]).                             (* 214 *)

(** 7. NewType *)
Definition section_7 : stmt :=
  from_import "typing" ["NewType"];;                                     (* 228 *)
  assign "UserID"
    (call_ fuel (name_ "NewType") [str_ "UserID"; name_ "int"] []);;     (* 230 *)
  assign "user_a" (call_ fuel (name_ "UserID") [int_ 156] []);;          (* 232 *)
  assign "user_b" (call_ fuel (name_ "UserID") [int_ 654] []);;          (* 233 *)
  assert_ (call_ fuel (name_ "isinstance")
             [name_ "user_a"; name_ "int"] []);;                         (* 235 *)
  assert_ (eq_ (add_ (name_ "user_a") (name_ "user_b"))
               (add_ (int_ 156) (int_ 654)));;                           (* 236 *)
  assign "sum_of_ids" (add_ (name_ "user_a") (name_ "user_b"));;         (* 238 *)
  assert_ (call_ fuel (name_ "isinstance")
             [name_ "sum_of_ids"; name_ "int"] []);;                     (* 240 *)
  def_ fuel [] "is_user_valid" [name_ "UserID"] c_is_user_valid;;        (* 243 *)
  do_ (call_ fuel (name_ "is_user_valid") [name_ "user_a"] []);;         (* 247 *)
  do_ (call_ fuel (name_ "is_user_valid")
         [add_ (name_ "user_a") (name_ "user_b")] []);;                  (* 248 *)
  do_ (call_ fuel (name_ "is_user_valid") [int_ 156] []).                (* 249 *)

(** 8. TypedDict *)
Definition section_8 : stmt :=
  from_import "typing" ["TypedDict"];;                                   (* 262 *)
  assign "ProductDict"
    (call_ fuel (name_ "TypedDict") [str_ "Product"]
       [("name", name_ "str"); ("price", name_ "float")]);;              (* 267 *)
  ann_assign "mobile_x" (name_ "ProductDict")
    (dict_ [("name", str_ "MobileX"); ("price", int_ 300)]);;            (* 269 *)
  set_item (name_ "mobile_x") (str_ "price") (int_ 350);;                (* 270 *)
  set_item (name_ "mobile_x") (str_ "brand") (str_ "XCo");;              (* 271 *)
  ann_assign "mobile_y" (name_ "ProductDict")
    (dict_ [("name", str_ "MobileY")]);;                                 (* 273 *)
  class_ fuel [] "ProductClass" [name_ "TypedDict"] []                   (* 282 *)
    [ Field "name" (name_ "str");                                        (* 283 *)
      Field "price" (name_ "float") ];;                                  (* 284 *)
  ann_assign "mobile_x_alt" (name_ "ProductClass")
    (dict_ [("name", str_ "MobileX"); ("price", int_ 300)]);;            (* 287 *)
  set_item (name_ "mobile_x_alt") (str_ "price") (int_ 350);;            (* 288 *)
  set_item (name_ "mobile_x_alt") (str_ "brand") (str_ "XCo");;          (* 289 *)
  class_ fuel [] "UnpricedProduct" [name_ "TypedDict"]
    [("total", const (VBool false))]                                     (* 294 *)
    [ Field "name" (name_ "str");                                        (* 295 *)
      Field "price" (name_ "float") ];;                                  (* 296 *)
  ann_assign "mobile_z" (name_ "UnpricedProduct")
    (dict_ [("name", str_ "MobileZ")]);;                                 (* 298 *)
  class_ fuel [] "Person" [name_ "TypedDict"] []                         (* 303 *)
    [ Field "name" (name_ "str");                                        (* 304 *)
      Field "age" (name_ "float") ];;                                    (* 305 *)
  class_ fuel [] "Student" [name_ "Person"]
    [("total", const (VBool false))]                                     (* 308 *)
    [ Field "mark" (name_ "float") ];;                                   (* 309 *)
  ann_assign "teacher" (name_ "Person")
    (dict_ [("name", str_ "Alfred"); ("age", int_ 30)]);;                (* 312 *)
  set_item (name_ "teacher") (str_ "mark") (int_ 0);;                    (* 313 *)
  ann_assign "student" (name_ "Student")
    (dict_ [("name", str_ "Peter"); ("age", int_ 16)]);;                 (* 315 *)
  set_item (name_ "student") (str_ "mark") (float_ 6.5).                 (* 316 *)

(** line 335: [origin] is declared [Final] with its first value *)
Definition declare_origin : stmt :=
  ann_assign "origin"
    (sub1 "Final" (sub2 "Tuple" (name_ "float") (name_ "float")))
    (pair_ 0.0 0.0).

(** line 336: [origin] is assigned again *)
Definition reassign_origin : stmt :=
  assign "origin" (pair_ 1.5 1.5).

(** 9.1 Final *)
Definition section_9_1 : stmt :=
  from_import "typing" ["Final"];;                                       (* 331 *)
  declare_origin;;                                                       (* 335 *)
  reassign_origin;;                                                      (* 336 *)
  ann_assign "FREE_FALL_ACCELERATION" (sub1 "Final" (name_ "float"))
    (float_ 9.764);;                                                     (* 338 *)
  from_import "dataclasses" ["dataclass"];;                              (* 343 *)
  from_import "typing" ["final"];;                                       (* 345 *)
  class_ fuel [name_ "dataclass"] "Citizen" [] []                        (* 350 *)
    [ Field "name" (name_ "str");                                        (* 352 *)
      Field "tax_id" (sub1 "Final" (name_ "int"));                       (* 353 *)
      Method [name_ "final"] "get_summary" [] c_Citizen_get_summary ];;  (* 355 *)
  class_ fuel [name_ "dataclass"] "Diplomat" [name_ "Citizen"] []        (* 360 *)
    [ Field "country" (name_ "str");                                     (* 362 *)
      Method [] "get_summary" [] c_Diplomat_get_summary ];;              (* 364 *)
  assign "citizen"
    (call_ fuel (name_ "Citizen") [str_ "John"; int_ 1235] []);;         (* 368 *)
  set_attr (name_ "citizen") "name" (str_ "John White");;                (* 369 *)
  set_attr (name_ "citizen") "tax_id" (int_ 654);;                       (* 370 *)
  do_ (call_ fuel (attribute (name_ "citizen") "get_summary") [] []);;   (* 371 *)
  assign "diplomat"
    (call_ fuel (name_ "Diplomat")
       [str_ "John"; int_ 1235; str_ "Pythonland"] []);;                 (* 373 *)
  do_ (call_ fuel (attribute (name_ "citizen") "get_summary") [] []).    (* 374 *)

(** 9.2 Literal, 9.3 Any *)
Definition section_9_2 : stmt :=
  from_import "typing" ["Literal"];;                                     (* 384 *)
  ann_assign "sex" (sub2 "Literal" (str_ "M") (str_ "F")) (str_ "F");;   (* 388 *)
  assign "sex" (str_ "M");;                                              (* 389 *)
  assign "sex" (str_ "Masculine");;                                      (* 390 *)
  from_import "typing" ["Any"];;                                         (* 397 *)
  ann_assign "parameter" (sub2 "Dict" (name_ "str") (name_ "Any"))
    (dict_ []);;                                                         (* 401 *)
  set_item (name_ "parameter") (str_ "workers") (int_ 5);;               (* 402 *)
  set_item (name_ "parameter") (str_ "experiment_name") (str_ "attemp_01");;  (* 403 *)
  set_item (name_ "parameter") (str_ "config")
    (dict_ [("id", int_ 123); ("module", str_ "Testing")]).              (* 404 *)

(** lines 416 to 420 *)
Definition class_Car : stmt :=
  class_ fuel [] "Car" [] []                                             (* 416 *)
    [ FieldDefault "petrol_price" (sub1 "ClassVar" (name_ "float")) (int_ 2);  (* 417 *)
      Method [] "set_pretol_price" [name_ "float"] c_Car_set_pretol_price ].   (* 419 *)

(** 9.3 ClassVar *)
Definition section_9_3 : stmt :=
  from_import "typing" ["ClassVar"];;                                    (* 413 *)
  class_Car;;
  assign "new_car" (call_ fuel (name_ "Car") [] []);;                    (* 423 *)
  assert_ (eq_ (attribute (name_ "Car") "petrol_price") (int_ 2));;      (* 424 *)
  assert_ (eq_ (attribute (name_ "new_car") "petrol_price") (int_ 2));;  (* 425 *)
  do_ (call_ fuel (attribute (name_ "new_car") "set_pretol_price")
         [int_ 5] []);;                                                  (* 426 *)
  assert_ (eq_ (attribute (name_ "Car") "petrol_price") (int_ 2));;      (* 427 *)
  assert_ (eq_ (attribute (name_ "new_car") "petrol_price") (int_ 5));;  (* 428 *)
  from_import "dataclasses" ["dataclass"];;                              (* 433 *)
  class_ fuel [name_ "dataclass"] "Motorbike" [] []                      (* 435 *)
    [ Field "brand" (name_ "str");                                       (* 437 *)
      Field "speed" (name_ "float");                                     (* 438 *)
      Field "maintenance_frequency" (sub1 "ClassVar" (name_ "float")) ]. (* 439 *)

(** The annotation [Union[float, List[float]]]. *)
Definition float_or_list : expr :=
  sub2 "Union" (name_ "float") (sub1 "List" (name_ "float")).

(** 10. Union *)
Definition section_10 : stmt :=
  from_import "typing" ["Union"];;                                       (* 446 *)
  def_ fuel [] "double" [float_or_list; float_or_list] c_double;;        (* 449 *)
  ann_assign "result" (name_ "float")
    (call_ fuel (name_ "double") [int_ 4] []);;                          (* 454 *)
  ann_assign "result_2" float_or_list
    (call_ fuel (name_ "double") [int_ 4] []);;                          (* 455 *)
  assign "FloatOrList"
    (or_ (name_ "float") (sub1 "List" (name_ "float")));;                (* 460 *)
  def_ fuel [] "double_alternative"
    [name_ "FloatOrList"; name_ "FloatOrList"] c_double_alternative;;    (* 463 *)
  ann_assign "result_alternative" (name_ "float")
    (call_ fuel (name_ "double_alternative") [int_ 4] []);;              (* 469 *)
  ann_assign "result_alternative_2" (name_ "FloatOrList")
    (call_ fuel (name_ "double_alternative") [int_ 4] []);;              (* 470 *)
  ann_assign "user_input" (sub2 "Union" (name_ "str") (const VNone))
    (str_ "Admin");;                                                     (* 475 *)
  def_ fuel [] "greetings"
    [sub2 "Union" (name_ "str") (const VNone); const VNone] c_greetings;;  (* 477 *)
  do_ (call_ fuel (name_ "greetings") [name_ "user_input"] []).          (* 482 *)

(** 11. Optional *)
Definition section_11 : stmt :=
  from_import "typing" ["Optional"];;                                    (* 490 *)
  ann_assign "user_input_alternative" (sub1 "Optional" (name_ "str"))
    (str_ "Admin");;                                                     (* 492 *)
  def_ fuel [] "greetings_alternative"
    [sub1 "Optional" (name_ "str"); const VNone] c_greetings_alternative;;  (* 494 *)
  do_ (call_ fuel (name_ "greetings_alternative")
         [name_ "user_input_alternative"] []).                           (* 500 *)

(** 12. Automatic Narrowing *)
Definition section_12 : stmt :=
  def_ fuel [] "get_scores" [float_or_list] c_get_scores;;               (* 508 *)
  ann_assign "field" float_or_list
    (call_ fuel (name_ "get_scores") [] []);;                            (* 512 *)
  do_ (call_ fuel (attribute (name_ "field") "append") [float_ 6.2] []);;  (* 514 *)
  if_ (call_ fuel (name_ "isinstance") [name_ "field"; name_ "list"] []) (* 516 *)
    (do_ (call_ fuel (attribute (name_ "field") "append")
            [float_ 6.2] [])).                                           (* 517 *)

(** 13. Custom Narrowing *)
Definition section_13 : stmt :=
  from_import "typing" ["TypeGuard"];;                                   (* 525 *)
  def_ fuel [] "convertable_to_string"
    [sub1 "List" (name_ "Any");
     sub1 "TypeGuard" (sub1 "List" (name_ "str"))]
    c_convertable_to_string;;                                            (* 530 *)
  ann_assign "data" (sub1 "List" (name_ "object"))
    (list_ [str_ "5"; str_ "8"; str_ "1"; str_ "0"; str_ "6"]);;         (* 534 *)
  assign "join_object"
    (call_ fuel (attribute (str_ " ") "join") [name_ "data"] []);;       (* 536 *)
  if_ (call_ fuel (name_ "convertable_to_string") [name_ "data"] [])     (* 538 *)
    (assign "join_str"
       (call_ fuel (attribute (str_ " ") "join") [name_ "data"] [])).    (* 539 *)

(** 14. Overloads *)
Definition section_14 : stmt :=
  from_import "typing" ["overload"];;                                    (* 547 *)
  def_ fuel [name_ "overload"] "triple"
    [name_ "float"; name_ "float"] c_triple_l551;;                       (* 550 *)
  def_ fuel [name_ "overload"] "triple"
    [sub1 "List" (name_ "float"); sub1 "List" (name_ "float")]
    c_triple_l556;;                                                      (* 555 *)
  def_ fuel [] "triple" [float_or_list; float_or_list] c_triple;;        (* 560 *)
  ann_assign "triple_result" (name_ "float")
    (call_ fuel (name_ "triple") [int_ 4] []);;                          (* 566 *)
  ann_assign "triple_result_2" (sub1 "List" (name_ "float"))
    (call_ fuel (name_ "triple") [list_ [int_ 4]] []);;                  (* 567 *)
  ann_assign "triple_result_3" float_or_list
    (call_ fuel (name_ "triple") [int_ 4] []);;                          (* 568 *)
  ann_assign "triple_result_4" float_or_list
    (call_ fuel (name_ "triple") [list_ [int_ 4]] []).                   (* 569 *)

(** 15. Protocols *)
Definition section_15 : stmt :=
  def_ fuel [] "sum_all_elements"
    [sub1 "List" (name_ "float"); name_ "float"] c_sum_all_elements;;    (* 584 *)
  do_ (call_ fuel (name_ "sum_all_elements")
         [list_ [int_ 1; int_ 2; int_ 3]] []);;                          (* 588 *)
  do_ (call_ fuel (name_ "sum_all_elements")
         [tuple_ [int_ 1; int_ 2; int_ 3]] []);;                         (* 589 *)
  def_ fuel [] "sum_all_elements_2"
    [sub2 "Union" (sub1 "List" (name_ "float"))
                  (sub2 "Tuple" (name_ "float") (const VEllipsis));
     name_ "float"] c_sum_all_elements_2_l595;;                          (* 595 *)
  do_ (call_ fuel (name_ "sum_all_elements_2")
         [list_ [int_ 1; int_ 2; int_ 3]] []);;                          (* 599 *)
  do_ (call_ fuel (name_ "sum_all_elements_2")
         [tuple_ [int_ 1; int_ 2; int_ 3]] []);;                         (* 600 *)
  do_ (call_ fuel (name_ "sum_all_elements_2")
         [call_ fuel (name_ "range") [int_ 1; int_ 4] []] []);;          (* 601 *)
  from_import "typing" ["Iterable"];;                                    (* 608 *)
  def_ fuel [] "sum_all_elements_2"
    [sub1 "Iterable" (name_ "float"); name_ "float"] c_sum_all_elements_2;;  (* 611 *)
  do_ (call_ fuel (name_ "sum_all_elements_2")
         [list_ [int_ 1; int_ 2; int_ 3]] []);;                          (* 615 *)
  do_ (call_ fuel (name_ "sum_all_elements_2")
         [tuple_ [int_ 1; int_ 2; int_ 3]] []);;                         (* 616 *)
  do_ (call_ fuel (name_ "sum_all_elements_2")
         [call_ fuel (name_ "range") [int_ 1; int_ 4] []] []);;          (* 617 *)
  from_import "typing" ["Protocol"];;                                    (* 625 *)
  class_ fuel [] "StreamingSystem" [name_ "Protocol"] []                 (* 630 *)
    [ Method [] "play" [const VNone] c_StreamingSystem_play ];;          (* 631 *)
  class_ fuel [] "WebStreamingSystem" [] []                              (* 635 *)
    [ Method [] "play" [const VNone] c_WebStreamingSystem_play ];;       (* 636 *)
  ann_assign "streaming" (name_ "StreamingSystem")
    (call_ fuel (name_ "WebStreamingSystem") [] []).                     (* 640 *)

(** The annotation [Callable[[float], float]]. *)
Definition float_to_float : expr :=
  sub2 "Callable" (list_ [name_ "float"]) (name_ "float").

(** 16. Typing Functions *)
Definition section_16 : stmt :=
  from_import "typing" ["Callable"];;                                    (* 652 *)
  def_ fuel [] "map_function"
    [float_to_float; sub1 "List" (name_ "float"); sub1 "List" (name_ "float")]
    c_map_function;;                                                     (* 655 *)
  def_ fuel [] "double_def" [name_ "float"] c_double_def;;               (* 661 *)
  class_ fuel [] "Doubler" [] []                                         (* 665 *)
    [ Method [] "__call__" [name_ "float"; name_ "float"] c_Doubler_call ];;  (* 666 *)
  assign "numbers"
    (list_ [float_ 1.5; float_ 0.5; float_ 3.5; float_ 4.0]);;           (* 670 *)
  do_ (call_ fuel (name_ "map_function")
         [name_ "double_def"; name_ "numbers"] []);;                     (* 672 *)
  do_ (call_ fuel (name_ "map_function")
         [const (VFunction c_lambda_l673 []); name_ "numbers"] []);;     (* 673 *)
  do_ (call_ fuel (name_ "map_function")
         [call_ fuel (name_ "Doubler") [] []; name_ "numbers"] []);;     (* 674 *)
  def_ fuel [] "summation"
    [name_ "float"; name_ "float"; name_ "float"] c_summation;;          (* 682 *)
  assert_ (eq_ (call_ fuel (name_ "summation") [int_ 2] [("x", int_ 4)])
               (int_ 6));;                                               (* 686 *)
  def_ fuel [] "multiply" [name_ "float"; float_to_float] c_multiply;;   (* 694 *)
  assert_ (eq_ (call_ fuel (call_ fuel (name_ "multiply") [int_ 2] [])
                  [int_ 3] [])
               (int_ 6)).                                                (* 701 *)

Definition ints_123 : expr := list_ [int_ 1; int_ 2; int_ 3].
Definition floats_3 : expr := list_ [float_ 1.5; float_ 2.5; float_ 3.5].
Definition strs_3 : expr := list_ [str_ "1.5"; str_ "2.5"; str_ "3.5"].
Definition mixed_2 : expr := list_ [float_ 1.5; str_ "2.5"].

(** The four calls that follow each first-element function. *)
Definition four_calls (f : string) : stmt :=
  assign "test_float" (call_ fuel (name_ f) [ints_123] []);;
  assign "test_float" (call_ fuel (name_ f) [floats_3] []);;
  assign "test_str" (call_ fuel (name_ f) [strs_3] []);;
  assign "test_union" (call_ fuel (name_ f) [mixed_2] []).

(** 17.1 Unbound and Unconstrained *)
Definition section_17_1 : stmt :=
  from_import "dataclasses" ["dataclass"];;                              (* 713 *)
  from_import "typing" ["Union"; "Sequence"];;                           (* 717 *)
  assign "FloatStrUnion" (sub2 "Union" (name_ "float") (name_ "str"));;  (* 719 *)
  def_ fuel [] "first_union"
    [sub1 "List" (name_ "FloatStrUnion"); name_ "FloatStrUnion"]
    c_first_union;;                                                      (* 722 *)
  annotate "test_float" (name_ "float");;                                (* 726 *)
  annotate "test_str" (name_ "str");;                                    (* 727 *)
  annotate "test_union" (name_ "FloatStrUnion");;                        (* 728 *)
  four_calls "first_union";;                                             (* 730-733 *)
  from_import "typing" ["TypeVar"];;                                     (* 738 *)
  assign "T" (call_ fuel (name_ "TypeVar") [str_ "T"] []);;              (* 740 *)
  def_ fuel [] "first_typevar"
    [sub1 "Sequence" (name_ "T"); name_ "T"] c_first_typevar;;           (* 743 *)
  four_calls "first_typevar".                                            (* 747-750 *)

(** 17.1 Constrained TypeVars *)
Definition section_17_2 : stmt :=
  assign "FloatOrString"
    (call_ fuel (name_ "TypeVar")
       [str_ "FloatOrString"; name_ "float"; name_ "str"] []);;          (* 758 *)
  def_ fuel [] "first_typevar_constrained"
    [sub1 "List" (name_ "FloatOrString"); name_ "FloatOrString"]
    c_first_typevar_constrained;;                                        (* 761 *)
  four_calls "first_typevar_constrained".                                (* 765-774 *)

(** 17.1 Bounded TypeVars *)
Definition section_17_3 : stmt :=
  assign "BoundedFloat"
    (call_ fuel (name_ "TypeVar") [str_ "BoundedFloat"]
       [("bound", name_ "float")]);;                                     (* 782 *)
  def_ fuel [] "first_typevar_bounded"
    [sub1 "List" (name_ "BoundedFloat"); name_ "BoundedFloat"]
    c_first_typevar_bounded;;                                            (* 785 *)
  four_calls "first_typevar_bounded".                                    (* 789-798 *)

(** 17.1 Covariant vs Contravariant vs Invariant, statement by
    statement *)

(** lines 809-813 *)
Definition class_AbstractStreamingServiceConfig : stmt :=
  from_import "abc" ["ABC"];;                                            (* 809 *)
  class_ fuel [name_ "dataclass"] "AbstractStreamingServiceConfig"
    [name_ "ABC"] [] [ Pass ].                                           (* 811 *)

(** line 816 *)
Definition assign_StreamConfig : stmt :=
  assign "StreamConfig"
    (call_ fuel (name_ "TypeVar") [str_ "StreamConfig"]
       [("bound", name_ "AbstractStreamingServiceConfig")]).

(** lines 819-822 *)
Definition class_AbstractStreamingService : stmt :=
  class_ fuel [name_ "dataclass"] "AbstractStreamingService"
    [name_ "ABC"; sub1 "Generic" (name_ "StreamConfig")] []              (* 820 *)
    [ Field "config" (name_ "StreamConfig");                             (* 821 *)
      Pass ].                                                            (* 822 *)

(** lines 825-828 *)
Definition class_WebCamStreamingServiceConfig : stmt :=
  class_ fuel [name_ "dataclass"] "WebCamStreamingServiceConfig"
    [name_ "AbstractStreamingServiceConfig"] []                          (* 826 *)
    [ FieldDefault "quality" (name_ "str") (str_ "720p");                (* 827 *)
      Pass ].                                                            (* 828 *)

(** lines 831-834 *)
Definition class_HighSpeedWebCamStreamingServiceConfig : stmt :=
  class_ fuel [name_ "dataclass"] "HighSpeedWebCamStreamingServiceConfig"
    [name_ "WebCamStreamingServiceConfig"] []                            (* 832 *)
    [ FieldDefault "fps" (name_ "int") (int_ 15000);                     (* 833 *)
      Pass ].                                                            (* 834 *)

(** lines 837-840 *)
Definition class_WebCamStreamingService : stmt :=
  class_ fuel [name_ "dataclass"] "WebCamStreamingService"
    [sub1 "AbstractStreamingService" (name_ "WebCamStreamingServiceConfig")] []  (* 838 *)
    [ Method [] "show_quality" [name_ "str"]
        c_WebCamStreamingService_show_quality ].                         (* 839 *)

(** [WebCamStreamingService(config())], as on lines 843 to 845 *)
Definition construct_service (config : string) : expr :=
  call_ fuel (name_ "WebCamStreamingService")
    [call_ fuel (name_ config) [] []] [].

Definition section_17_4 : stmt :=
  class_AbstractStreamingServiceConfig;;
  assign_StreamConfig;;
  class_AbstractStreamingService;;
  class_WebCamStreamingServiceConfig;;
  class_HighSpeedWebCamStreamingServiceConfig;;
  class_WebCamStreamingService;;
  do_ (construct_service "AbstractStreamingServiceConfig");;             (* 843 *)
  do_ (construct_service "WebCamStreamingServiceConfig");;               (* 844 *)
  do_ (construct_service "HighSpeedWebCamStreamingServiceConfig").       (* 845 *)

(** The sections in the order of the file.  Sections 18 to 20 of the
    script are headings without statements. *)
Definition sections : list stmt :=
  [ section_1; section_2; section_3; section_4; section_5;
    section_6; section_7; section_8;
    section_9_1; section_9_2; section_9_3;
    section_10; section_11; section_12; section_13; section_14;
    section_15; section_16;
    section_17_1; section_17_2; section_17_3; section_17_4 ].

(** Statements run one after the other; the first exception ends the run. *)
Definition run_all (body : list stmt) : stmt := for_each id body.

(** The whole module, top to bottom. *)
Definition module : stmt := run_all sections.

(** The module up to, and without, its [k]-th section (counting from 0). *)
Definition module_before (k : nat) : stmt := run_all (take k sections).

End Script.

(** * Vocabulary of the properties

    The scenarios, states and predicates the theorems below speak of. *)

(** The result [r] is a propagating built-in exception of class [b]
    whose only argument is the message [msg]. *)
Definition raises {A} (r : outcome A * state) (b : bclass) (msg : string) : Prop :=
  ∃ l, fst r = Raised (VObj l) ∧
       heap (snd r) !! l = Some (OInstance (CB b) {[ "args" := VTuple [VStr msg] ]}).

(** The console lines of a run of the module that gets as far as
    section 17. *)
Definition console_lines : list string :=
  [ "You are paying with Debit";
    "ValueError was thrown!";
    "This vehicle can go to 140 and is Blue";
    "This vehicle can go to 90 and is Red";
    "This truck can go to 90 and is Red";
    "This truck can go to 140 and is Blue";
    "Welcome Admin.";
    "Welcome Admin." ].

(** The module from its first line to line 816, where [StreamConfig] is
    bound. *)
Definition module_to_l816 (fuel : nat) : stmt :=
  module_before fuel 21;;
  class_AbstractStreamingServiceConfig fuel;;
  assign_StreamConfig fuel.

(** What the name [x] is bound to when the first [k] sections of the
    module have run. *)
Definition bound_after (fuel k : nat) (x : string) : option value :=
  globals (snd (module_before fuel k initial_state)) !! x.

(** *** Closures: [multiply] *)

(** [multiply(x)(y)], as line 701 writes it. *)
Definition multiply_then_call (fuel : nat) (x y : value) : M value :=
  f ← call fuel (VFunction c_multiply []) [x] [];
  call fuel f [y] [].

(** *** Generic parameters: the four first-element functions *)

(** The items of a sequence, in index order: tuples, strings, ranges,
    and the lists of the heap. *)
Definition seq_items (s : state) (v : value) : option (list value) :=
  match v with
  | VTuple items => Some items
  | VStr str => Some (chars str)
  | VRange a b => Some (range_items a b)
  | VObj l =>
      match heap s !! l with
      | Some (OList items) => Some items
      | _ => None
      end
  | _ => None
  end.

(** *** The immutability qualifier: [origin] *)

(** The state in which line 335 runs: sections 1 to 8 are done and
    [Final] is imported. *)
Definition state_at_l335 (fuel : nat) : state :=
  snd ((module_before fuel 8;; from_import "typing" ["Final"]) initial_state).

(** *** The distinct-subtype wrapper: [UserID] *)

(** [UserID(a) + UserID(b)] for the wrapper [user_id]. *)
Definition wrapped_sum (fuel : nat) (user_id : value) (a b : Z) : M value :=
  x ← call fuel user_id [VInt a] [];
  y ← call fuel user_id [VInt b] [];
  py_add x y.

(** *** The function that never returns: [raise_exception] *)

(** The state in which line 155 runs: sections 1 to 3 and the
    definitions of section 4 are done. *)
Definition state_at_l155 (fuel : nat) : state :=
  snd ((module_before fuel 3;; section_4_functions fuel) initial_state).

(** *** Overloads: [triple] *)

(** The numbers [triple] is declared for: [float], which to a type
    checker includes [int] (and [bool], an [int]). *)
Definition is_real (v : value) : bool :=
  match v with
  | VBool _ | VInt _ | VFloat _ => true
  | _ => false
  end.

(** Three times a number: exact on integers, the IEEE product with
    [3.0] on floats. *)
Definition times3 (v : value) : value :=
  match v with
  | VBool b => VInt ((if b then 1 else 0) * 3)
  | VInt n => VInt (n * 3)
  | VFloat x => VFloat (x * 3)
  | _ => v
  end.

(** One turn of the comprehension [[x * 3 for x in number]]. *)
Definition triple_step (out : loc) (x : value) : M unit :=
  r ← py_mul x (VInt 3); list_append (VObj out) r;; mret tt.

(** *** The class-scoped field: [Car.petrol_price] *)

(** The state [s] with the heap [h]. *)
Definition with_heap (s : state) (h : list obj) : state :=
  {| globals := globals s; heap := h; stdout := stdout s |}.

(** What the example needs of the class object that lines 416 to 420
    create at address [c]. *)
Record car_class (k : class_obj) (c : loc) : Prop := {
  car_kind : cls_kind k = KPlain;
  car_mro : cls_mro k = [CU c; CB C_object];
  car_price : cls_attrs k !! "petrol_price" = Some (VInt 2);
  car_setter : cls_attrs k !! "set_pretol_price"
               = Some (VFunction c_Car_set_pretol_price []);
  car_no_init : cls_attrs k !! "__init__" = None
}.

(** Two cars are built; the class and both cars are read; the first car
    is given a price through [set_pretol_price]; then both cars and the
    class are read again. *)
Definition two_cars (fuel : nat) (car price : value) : M (list value) :=
  a ← call fuel car [] [];
  b ← call fuel car [] [];
  class_before ← py_getattr car "petrol_price";
  a_before ← py_getattr a "petrol_price";
  b_before ← py_getattr b "petrol_price";
  setter ← py_getattr a "set_pretol_price";
  call fuel setter [price] [];;
  a_after ← py_getattr a "petrol_price";
  b_after ← py_getattr b "petrol_price";
  class_after ← py_getattr car "petrol_price";
  mret [class_before; a_before; b_before; a_after; b_after; class_after].

(** The state after line 420: sections 1 to 9.2 are done, [ClassVar] is
    imported and the class statement of [Car] has run. *)
Definition state_after_class_Car (fuel : nat) : state :=
  snd ((module_before fuel 10;; from_import "typing" ["ClassVar"];; class_Car fuel)
         initial_state).

(** *** Variance: [WebCamStreamingService] *)

(** [WebCamStreamingService(config()).show_quality()] *)
Definition show_quality_of (fuel : nat) (config : string) : M value :=
  service ← construct_service fuel config;
  method ← py_getattr service "show_quality";
  call fuel method [] [].

(** The module with the missing import supplied just before the
    variance example: sections 1 to 17.3, [from typing import Generic],
    then lines 809 to 845. *)
Definition module_with_Generic (fuel : nat) : stmt :=
  module_before fuel 21;;
  from_import "typing" ["Generic"];;
  section_17_4 fuel.

(** * Properties of the script *)

(** ** Running the monad, step by step *)

Lemma bind_run {A B} (m : M A) (f : A → M B) (s : state) :
  (m ≫= f) s =
  match m s with
  | (Normal a, s') => f a s'
  | (Raised e, s') => (Raised e, s')
  | (Stuck w, s') => (Stuck w, s')
  end.
Proof. reflexivity. Qed.

Lemma bind_normal {A B} (m : M A) (f : A → M B) (s s' : state) (a : A) :
  m s = (Normal a, s') → (m ≫= f) s = f a s'.
Proof. intros H. rewrite bind_run, H. reflexivity. Qed.

Lemma deref_some (l : loc) (o : obj) (s : state) :
  heap s !! l = Some o → deref l s = (Normal o, s).
Proof. intros H. unfold deref. rewrite H. reflexivity. Qed.

Lemma state_eta (s : state) :
  {| globals := globals s; heap := heap s; stdout := stdout s |} = s.
Proof. destruct s; reflexivity. Qed.

(** A call whose path through the interpreter does not depend on the
    unknowns of the goal is settled by evaluation. *)
Ltac run_call := vm_compute; reflexivity.

(** The first action of a sequence runs as the equation [H] says. *)
Ltac step H := rewrite bind_run, H; cbv iota beta.

(** ** The whole module *)

(** C1.  The script does not run to its end.  Everything up to line 816
    completes and prints eight lines; the [class] statement of line 820
    names [Generic], which the script never imports, and raises
    [NameError]; nothing handles it, so the run of the module ends there,
    with [WebCamStreamingService] never defined. *)
Theorem module_raises_NameError (n : nat) :
  let fuel := (3 + n)%nat in
  let before := module_to_l816 fuel initial_state in
  let run := module fuel initial_state in
  fst before = Normal tt
  ∧ stdout (snd before) = console_lines
  ∧ raises (class_AbstractStreamingService fuel (snd before))
           C_NameError "name 'Generic' is not defined"
  ∧ raises run C_NameError "name 'Generic' is not defined"
  ∧ stdout (snd run) = console_lines
  ∧ globals (snd run) !! "WebCamStreamingService" = None.
Proof.
  cbv zeta.
  repeat split; try (vm_compute; reflexivity);
    eexists; split; vm_compute; reflexivity.
Qed.

(** ** Optional names: [greetings] *)

(** C10.  Neither greeting function returns after the "No name" line:
    called with [None], each prints "No name" and then "Welcome None.";
    called with a string, each prints the welcome line for it.  So the
    welcome line is printed for every input of type [Optional[str]].
    These are the functions the names [greetings] and
    [greetings_alternative] are bound to once section 11 has run. *)
Theorem greetings_always_welcome (n : nat) (s : state) :
  let printed lines :=
    (Normal VNone,
     {| globals := globals s; heap := heap s; stdout := stdout s ++ lines |}) in
  bound_after (3 + n) 13 "greetings" = Some (VFunction c_greetings [])
  ∧ bound_after (3 + n) 13 "greetings_alternative"
    = Some (VFunction c_greetings_alternative [])
  ∧ call (2 + n) (VFunction c_greetings []) [VNone] [] s
    = printed ["No name"; "Welcome None."]
  ∧ call (2 + n) (VFunction c_greetings_alternative []) [VNone] [] s
    = printed ["No name"; "Welcome None."]
  ∧ (∀ name : string,
       call (2 + n) (VFunction c_greetings []) [VStr name] [] s
         = printed ["Welcome " +:+ name +:+ "."]
       ∧ call (2 + n) (VFunction c_greetings_alternative []) [VStr name] [] s
         = printed ["Welcome " +:+ name +:+ "."]).
Proof.
  cbv beta zeta.
  change (stdout s ++ ["No name"; "Welcome None."])
    with (stdout s ++ (["No name"] ++ ["Welcome None."])).
  rewrite app_assoc.
  repeat split; run_call.
Qed.

(** ** Closures: [multiply] *)

(** C8.  The function returned by [multiply(x)] remembers [x]: applied
    to [y] it behaves as the expression [x * y], whatever the two values
    are.  On integers that is the product in [Z], on floats the IEEE
    product, and [multiply(2)(3)] is [6].  From line 694 on, the name
    [multiply] is bound to this function. *)
Theorem multiply_closure (n : nat) (s : state) :
  bound_after (3 + n) 18 "multiply" = Some (VFunction c_multiply [])
  ∧ multiply_then_call (2 + n) (VInt 2) (VInt 3) s = (Normal (VInt 6), s)
  ∧ (∀ x y : value, multiply_then_call (2 + n) x y s = py_mul x y s)
  ∧ (∀ a b : Z,
       multiply_then_call (2 + n) (VInt a) (VInt b) s = (Normal (VInt (a * b)), s))
  ∧ (∀ a b : float,
       multiply_then_call (2 + n) (VFloat a) (VFloat b) s
       = (Normal (VFloat (a * b)), s)).
Proof.
  split; [vm_compute; reflexivity|].
  repeat split; intros; reflexivity.
Qed.

(** ** Generic parameters: the four first-element functions *)

Lemma index_nth_head {A} (x : A) (rest : list A) :
  index_nth (x :: rest) 0 = Some x.
Proof.
  unfold index_nth.
  replace (0 <? 0) with false by reflexivity.
  assert (H : (0 <? Z.of_nat (length (x :: rest))) = true).
  { apply Z.ltb_lt. simpl length. lia. }
  rewrite H. reflexivity.
Qed.

Lemma getitem_head (s : state) (v x : value) (rest : list value) :
  seq_items s v = Some (x :: rest) →
  py_getitem v (VInt 0) s = (Normal x, s).
Proof.
  intros H.
  assert (Hseq : ∀ items, items = x :: rest →
                 index_seq items (VInt 0) s = (Normal x, s)).
  { intros items ->. unfold index_seq, as_index.
    rewrite index_nth_head. reflexivity. }
  destruct v; simpl in H; try discriminate.
  - injection H as H. simpl. auto.
  - injection H as H. simpl. auto.
  - injection H as H. simpl. auto.
  - destruct (heap s !! l) as [[items| | | |]|] eqn:Hl; try discriminate.
    injection H as H. simpl.
    rewrite (bind_normal _ _ s s (OList items)) by (apply deref_some; exact Hl).
    auto.
Qed.

(** The four functions have the same body, so they agree on every
    argument, sequence or not. *)
Lemma first_functions_agree (n : nat) (v : value) (s : state) :
  let f c := call (2 + n) (VFunction c []) [v] [] s in
  f c_first_union = py_getitem v (VInt 0) s
  ∧ f c_first_typevar = py_getitem v (VInt 0) s
  ∧ f c_first_typevar_constrained = py_getitem v (VInt 0) s
  ∧ f c_first_typevar_bounded = py_getitem v (VInt 0) s.
Proof. repeat split; run_call. Qed.

(** C9.  Called with a non-empty sequence, each of [first_union],
    [first_typevar], [first_typevar_constrained] and
    [first_typevar_bounded] returns its first item and changes nothing;
    and the four agree on every argument whatsoever: the generic
    parameters in their annotations play no part when they run.  These
    are the functions the four names are bound to once sections 17.1 to
    17.3 have run. *)
Theorem first_functions_return_head
    (n : nat) (s : state) (v x : value) (rest : list value) :
  seq_items s v = Some (x :: rest) →
  let f c w := call (2 + n) (VFunction c []) [w] [] s in
  f c_first_union v = (Normal x, s)
  ∧ f c_first_typevar v = (Normal x, s)
  ∧ f c_first_typevar_constrained v = (Normal x, s)
  ∧ f c_first_typevar_bounded v = (Normal x, s)
  ∧ (∀ w, f c_first_typevar w = f c_first_union w
          ∧ f c_first_typevar_constrained w = f c_first_union w
          ∧ f c_first_typevar_bounded w = f c_first_union w)
  ∧ (∀ name c,
       (name, c) ∈ [ ("first_union", c_first_union);
                     ("first_typevar", c_first_typevar);
                     ("first_typevar_constrained", c_first_typevar_constrained);
                     ("first_typevar_bounded", c_first_typevar_bounded) ] →
       bound_after (3 + n) 21 name = Some (VFunction c [])).
Proof.
  intros H f.
  destruct (first_functions_agree n v s) as (E1 & E2 & E3 & E4).
  cbv zeta in E1, E2, E3, E4. subst f. cbv beta.
  rewrite E1, E2, E3, E4, (getitem_head s v x rest H).
  do 4 (split; [reflexivity|]).
  split.
  - intros w.
    destruct (first_functions_agree n w s) as (F1 & F2 & F3 & F4).
    cbv zeta in F1, F2, F3, F4. repeat split; congruence.
  - intros name c Hin.
    repeat (apply elem_of_cons in Hin as [[= -> ->]|Hin];
            [vm_compute; reflexivity|]).
    apply elem_of_nil in Hin. contradiction.
Qed.

(** The mixed list of line 733, [[1.5, "2.5"]], gives [1.5]. *)
Lemma first_functions_return_head_witness :
  let s := {| globals := ∅; heap := [OList [VFloat 1.5; VStr "2.5"]]; stdout := [] |} in
  call 2 (VFunction c_first_union []) [VObj 0%nat] [] s = (Normal (VFloat 1.5), s)
  ∧ call 2 (VFunction c_first_typevar_bounded []) [VObj 0%nat] [] s
    = (Normal (VFloat 1.5), s).
Proof.
  intros s.
  destruct (first_functions_return_head 0 s (VObj 0%nat) (VFloat 1.5) [VStr "2.5"])
    as (H1 & _ & _ & H4 & _).
  - reflexivity.
  - split; [exact H1 | exact H4].
Defined.

(** ** The immutability qualifier: [origin] *)

(** C7.  [Final] is not enforced when the script runs.  Line 335 binds
    [origin] to [(0.0, 0.0)]; line 336 then completes without an
    exception and [origin] is [(1.5, 1.5)].  Indeed line 336 succeeds in
    every state: it rebinds the name and touches nothing else. *)
Theorem origin_reassigned (n : nat) :
  let declared := declare_origin (state_at_l335 (3 + n)) in
  let reassigned := reassign_origin (snd declared) in
  fst declared = Normal tt
  ∧ globals (snd declared) !! "origin" = Some (VTuple [VFloat 0; VFloat 0])
  ∧ fst reassigned = Normal tt
  ∧ globals (snd reassigned) !! "origin" = Some (VTuple [VFloat 1.5; VFloat 1.5])
  ∧ (∀ s : state,
       reassign_origin s
       = (Normal tt,
          {| globals := <["origin" := VTuple [VFloat 1.5; VFloat 1.5]]> (globals s);
             heap := heap s; stdout := stdout s |})).
Proof.
  cbv zeta.
  repeat split; try (vm_compute; reflexivity).
Qed.

(** ** The distinct-subtype wrapper: [UserID] *)

(** C3.  Section 7 of the module runs to its end, so its three [assert]
    statements hold: [UserID] is bound to a [NewType] over [int],
    [user_a] is [156] and [user_b] is [654], both plain integers, their
    sum [sum_of_ids] is exactly [810], and [isinstance(..., int)] is true
    of a wrapped value and of the sum.  For any two integers the sum of
    the wrapped values is their sum in [Z]. *)
Theorem user_ids_sum_810 (n : nat) :
  let fuel := (3 + n)%nat in
  let r := section_7 fuel (snd (module_before fuel 6 initial_state)) in
  let user_id := VNewType "UserID" (VClass (CB C_int)) in
  fst r = Normal tt
  ∧ globals (snd r) !! "UserID" = Some user_id
  ∧ globals (snd r) !! "user_a" = Some (VInt 156)
  ∧ globals (snd r) !! "user_b" = Some (VInt 654)
  ∧ globals (snd r) !! "sum_of_ids" = Some (VInt 810)
  ∧ wrapped_sum fuel user_id 156 654 (snd r) = (Normal (VInt 810), snd r)
  ∧ instance_of (snd r) (VInt 156) (CB C_int) = Some true
  ∧ instance_of (snd r) (VInt 810) (CB C_int) = Some true
  ∧ (∀ (a b : Z) (s : state),
       wrapped_sum fuel user_id a b s = (Normal (VInt (a + b)), s)
       ∧ instance_of s (VInt (a + b)) (CB C_int) = Some true).
Proof.
  cbv zeta.
  repeat split; try (vm_compute; reflexivity).
Qed.

(** An [assert] of a false value does raise: the assertions of the
    script are checked when it runs. *)
Lemma assert_false_raises (s : state) :
  ∃ l, py_assert (VBool false) s
       = (Raised (VObj l),
          {| globals := globals s;
             heap := heap s ++ [OInstance (CB C_AssertionError) {[ "args" := VTuple [] ]}];
             stdout := stdout s |})
       ∧ l = length (heap s).
Proof. eexists. split; reflexivity. Qed.

(** ** The function that never returns: [raise_exception] *)

(** [raise] ends in an exception whatever it is given, and prints
    nothing. *)
Lemma py_raise_raises {A} (v : value) (s : state) :
  ∃ e s', @py_raise A v s = (Raised e, s') ∧ stdout s' = stdout s.
Proof.
  destruct v; try (eexists; eexists; split; reflexivity).
  - (* a reference *)
    unfold py_raise. rewrite bind_run. cbn [get_state].
    destruct (instance_of s (VObj l) (CB C_BaseException)) as [[|]|];
      eexists; eexists; split; reflexivity.
  - (* a class *)
    destruct c as [b|l]; [|eexists; eexists; split; reflexivity].
    unfold py_raise. destruct (is_exception_class b);
      eexists; eexists; split; reflexivity.
Qed.

(** Whenever the class of the argument has a name in the model,
    [raise_exception] prints that name once and ends in an exception. *)
Lemma raise_exception_raises (v : value) (s : state) (name : string) :
  type_of s v ≫= class_name_of s = Some name →
  ∃ e s', raise_exception v s = (Raised e, s')
          ∧ stdout s' = stdout s ++ [name +:+ " was thrown!"].
Proof.
  intros Hname. unfold raise_exception, py_class_name.
  rewrite bind_run, Hname. cbv iota beta. rewrite bind_run.
  change (py_print [VStr (name +:+ " was thrown!")] s)
    with (Normal VNone,
          {| globals := globals s; heap := heap s;
             stdout := stdout s ++ [name +:+ " was thrown!"] |}).
  cbv iota beta.
  match goal with
  | |- ∃ e s', py_raise v ?s2 = _ ∧ _ =>
      destruct (@py_raise_raises value v s2) as (e & s3 & -> & Hout)
  end.
  exists e, s3. split; [reflexivity | exact Hout].
Qed.

Lemma raise_exception_not_normal (v : value) (s : state) :
  ∀ a s', raise_exception v s ≠ (Normal a, s').
Proof.
  intros a s'. unfold raise_exception. rewrite bind_run.
  destruct (py_class_name v s) as [[name|e|w] s1]; try discriminate.
  rewrite bind_run.
  change (py_print [VStr (name +:+ " was thrown!")] s1)
    with (Normal VNone,
          {| globals := globals s1; heap := heap s1;
             stdout := stdout s1 ++ [name +:+ " was thrown!"] |}).
  cbv iota beta.
  match goal with
  | |- py_raise v ?s2 ≠ _ =>
      destruct (@py_raise_raises value v s2) as (e & s3 & -> & _)
  end.
  discriminate.
Qed.

(** Given an instance of a built-in exception class, [raise_exception]
    prints one line with the name of the class and raises the instance
    it was given. *)
Lemma raise_exception_reraises
    (l : loc) (b : bclass) (attrs : gmap string value) (s : state) :
  heap s !! l = Some (OInstance (CB b) attrs) →
  is_exception_class b = true →
  raise_exception (VObj l) s
  = (Raised (VObj l),
     {| globals := globals s; heap := heap s;
        stdout := stdout s ++ [bclass_name b +:+ " was thrown!"] |}).
Proof.
  intros Hl Hb.
  unfold raise_exception, py_class_name, type_of. rewrite bind_run, Hl.
  cbn [mbind option_bind class_name_of].
  rewrite bind_run.
  change (py_print [VStr (bclass_name b +:+ " was thrown!")] s)
    with (Normal VNone,
          {| globals := globals s; heap := heap s;
             stdout := stdout s ++ [bclass_name b +:+ " was thrown!"] |}).
  cbv iota beta.
  unfold py_raise. rewrite bind_run. cbn [get_state].
  unfold instance_of, type_of. cbn [heap]. rewrite Hl.
  cbn [mbind option_bind mro_of].
  unfold is_exception_class in Hb. rewrite Hb.
  reflexivity.
Qed.

(** C5.  [raise_exception] never returns normally, whatever its argument
    and in whatever state it is called; whenever the class of the
    argument has a name in the model, it prints that name once and an
    exception propagates.  Called with an instance of an
    exception class it prints exactly one line, the name of the class
    followed by " was thrown!", and raises that very instance.  In the
    script (lines 155 to 158) the argument is a new [ValueError]: the
    line "ValueError was thrown!" is printed, the handler catches the
    exception and the statement completes; beyond the new exception
    object and that one line, nothing has changed. *)
Theorem raise_exception_never_returns (n : nat) (v : value) (s : state) :
  let fuel := (3 + n)%nat in
  (∀ a s', call fuel (VFunction c_raise_exception []) [v] [] s ≠ (Normal a, s'))
  ∧ (∀ name,
       type_of s v ≫= class_name_of s = Some name →
       ∃ e s', call fuel (VFunction c_raise_exception []) [v] [] s = (Raised e, s')
               ∧ stdout s' = stdout s ++ [name +:+ " was thrown!"])
  ∧ (∀ l b attrs,
       v = VObj l →
       heap s !! l = Some (OInstance (CB b) attrs) →
       is_exception_class b = true →
       call fuel (VFunction c_raise_exception []) [v] [] s
       = (Raised v,
          {| globals := globals s; heap := heap s;
             stdout := stdout s ++ [bclass_name b +:+ " was thrown!"] |}))
  ∧ (let s0 := state_at_l155 fuel in
     try_raise_exception fuel s0
     = (Normal tt,
        {| globals := globals s0;
           heap := heap s0 ++ [OInstance (CB C_ValueError) {[ "args" := VTuple [] ]}];
           stdout := stdout s0 ++ ["ValueError was thrown!"] |})).
Proof.
  cbv zeta.
  assert (E : call (3 + n) (VFunction c_raise_exception []) [v] [] s
              = raise_exception v s) by reflexivity.
  rewrite E.
  split; [apply raise_exception_not_normal|].
  split; [apply raise_exception_raises|].
  split; [|vm_compute; reflexivity].
  intros l b attrs -> Hl Hb.
  apply (raise_exception_reraises l b attrs); assumption.
Qed.

(** A [KeyError] in hand is announced and raised again. *)
Lemma raise_exception_never_returns_witness :
  let e := OInstance (CB C_KeyError) {[ "args" := VTuple [VStr "k"] ]} in
  let s := {| globals := ∅; heap := [e]; stdout := [] |} in
  call 3 (VFunction c_raise_exception []) [VObj 0%nat] [] s
  = (Raised (VObj 0%nat),
     {| globals := ∅; heap := [e]; stdout := ["KeyError was thrown!"] |}).
Proof.
  intros e s.
  pose proof (raise_exception_never_returns 0 (VObj 0%nat) s) as H.
  cbv zeta in H. destruct H as (_ & _ & H & _).
  exact (H 0%nat C_KeyError {[ "args" := VTuple [VStr "k"] ]}
           eq_refl eq_refl eq_refl).
Defined.

(** ** Overloads: [triple] *)

Lemma float_of_int_3 : float_of_int 3 = Some 3%float.
Proof. vm_compute. reflexivity. Qed.

Lemma py_mul_3 (v : value) (s : state) :
  is_real v = true → py_mul v (VInt 3) s = (Normal (times3 v), s).
Proof.
  destruct v; try discriminate; intros _.
  - reflexivity.
  - reflexivity.
  - unfold py_mul, as_num, num_mul, is_complex, num_to_float.
    rewrite float_of_int_3. reflexivity.
Qed.

Lemma triple_step_run (out : loc) (acc : list value) (x : value) (s : state) :
  is_real x = true →
  heap s !! out = Some (OList acc) →
  triple_step out x s
  = (Normal tt,
     {| globals := globals s;
        heap := <[out := OList (acc ++ [times3 x])]> (heap s);
        stdout := stdout s |}).
Proof.
  intros Hx Hout. unfold triple_step.
  rewrite (bind_normal _ _ s s (times3 x)) by (apply py_mul_3; exact Hx).
  unfold list_append.
  rewrite bind_run, (bind_normal _ _ s s (OList acc)) by (apply deref_some; exact Hout).
  reflexivity.
Qed.

(** The loop appends the tripled items, in order, to the list at [out]
    and touches nothing else. *)
Lemma triple_loop (out : loc) (items acc : list value) (s : state) :
  forallb is_real items = true →
  heap s !! out = Some (OList acc) →
  for_each (triple_step out) items s
  = (Normal tt,
     {| globals := globals s;
        heap := <[out := OList (acc ++ (times3 <$> items))]> (heap s);
        stdout := stdout s |}).
Proof.
  revert acc s.
  induction items as [|x rest IH]; intros acc s Hreal Hout.
  - change (times3 <$> []) with (@nil value).
    rewrite app_nil_r, (list_insert_id _ _ _ Hout), state_eta. reflexivity.
  - simpl in Hreal. apply andb_prop in Hreal as [Hx Hrest].
    cbn [for_each]. rewrite bind_run, (triple_step_run out acc x s Hx Hout).
    cbv iota beta.
    rewrite (IH (acc ++ [times3 x])); [|exact Hrest|].
    + cbn [globals heap stdout].
      rewrite list_insert_insert_eq, <- app_assoc. reflexivity.
    + cbn [heap]. apply list_lookup_insert_eq.
      apply lookup_lt_Some in Hout. exact Hout.
Qed.

(** Overwriting the last object of the heap. *)
Lemma insert_snoc {A} (h : list A) (x y : A) :
  <[length h := x]> (h ++ [y]) = h ++ [x].
Proof.
  replace (length h) with (length h + 0)%nat by lia.
  rewrite insert_app_r. reflexivity.
Qed.

Lemma triple_of_list (l : loc) (items : list value) (s : state) :
  heap s !! l = Some (OList items) →
  forallb is_real items = true →
  triple (VObj l) s
  = (Normal (VObj (length (heap s))),
     {| globals := globals s;
        heap := heap s ++ [OList (times3 <$> items)];
        stdout := stdout s |}).
Proof.
  intros Hl Hreal.
  unfold triple, py_isinstance, instance_of, type_of.
  rewrite bind_run, Hl. cbn [mbind option_bind mro_of].
  replace (bool_decide (CB C_list ∈ bclass_mro C_list)) with true
    by (vm_compute; reflexivity).
  cbv iota beta. unfold list_comp, py_iter.
  rewrite bind_run, (bind_normal _ _ s s (OList items)) by (apply deref_some; exact Hl).
  cbv iota beta.
  unfold mret at 1, M_ret at 1. cbv iota beta.
  rewrite bind_run.
  change (new_list [] s)
    with (Normal (VObj (length (heap s))),
          {| globals := globals s; heap := heap s ++ [OList []];
             stdout := stdout s |}).
  cbv iota beta. rewrite bind_run.
  change (λ x : value, py_mul x (VInt 3) ≫= λ r : value,
            list_append (VObj (length (heap s))) r ≫= λ _ : value, mret ())
    with (triple_step (length (heap s))).
  rewrite (triple_loop (length (heap s)) items []).
  - cbn [globals heap stdout app]. rewrite insert_snoc. reflexivity.
  - exact Hreal.
  - cbn [heap]. apply list_lookup_middle. reflexivity.
Qed.

Lemma triple_of_number (v : value) (s : state) :
  is_real v = true → triple v s = (Normal (times3 v), s).
Proof.
  intros Hv. unfold triple. rewrite bind_run.
  assert (E : py_isinstance v (CB C_list) s = (Normal false, s))
    by (destruct v; try discriminate; reflexivity).
  rewrite E. cbv iota beta. apply py_mul_3. exact Hv.
Qed.

(** C6.  [triple] called with a number returns three times the number:
    the product in [Z] for an integer, the IEEE product with [3.0] for a
    float; the state is unchanged.  Called with a list of numbers it
    returns a list that was not in the heap before, so not the argument,
    holding three times each item of the argument in the same order, as
    many items as the argument has; the argument is left as it was.
    Once section 14 has run, the name [triple] is bound to this function
    and not to an overload stub. *)
Theorem triple_multiplies_by_3 (n : nat) (s : state) :
  let f arg := call (2 + n) (VFunction c_triple []) [arg] [] s in
  (∀ v, is_real v = true → f v = (Normal (times3 v), s))
  ∧ (∀ k : Z, f (VInt k) = (Normal (VInt (k * 3)), s))
  ∧ (∀ x : float, f (VFloat x) = (Normal (VFloat (x * 3)), s))
  ∧ (∀ l items,
       heap s !! l = Some (OList items) →
       forallb is_real items = true →
       let out := length (heap s) in
       let s' := {| globals := globals s;
                    heap := heap s ++ [OList (times3 <$> items)];
                    stdout := stdout s |} in
       f (VObj l) = (Normal (VObj out), s')
       ∧ out ≠ l
       ∧ heap s' !! out = Some (OList (times3 <$> items))
       ∧ heap s' !! l = Some (OList items)
       ∧ length (times3 <$> items) = length items)
  ∧ bound_after (3 + n) 16 "triple" = Some (VFunction c_triple []).
Proof.
  intros f.
  assert (E : ∀ arg, f arg = triple arg s) by reflexivity.
  split; [|split; [|split; [|split]]]; [| | | |vm_compute; reflexivity].
  - intros v Hv. rewrite E. apply triple_of_number. exact Hv.
  - intros k. rewrite E. apply (triple_of_number (VInt k)). reflexivity.
  - intros x. rewrite E. apply (triple_of_number (VFloat x)). reflexivity.
  - intros l items Hl Hreal out s'. rewrite E.
    split; [apply triple_of_list; assumption|].
    pose proof (lookup_lt_Some _ _ _ Hl) as Hlt.
    split; [subst out; lia|].
    split; [apply list_lookup_middle; reflexivity|].
    split; [apply lookup_app_l_Some; exact Hl|].
    apply length_fmap.
Qed.

(** Lines 566 and 567: [triple(4)] is [12], and [triple([4])] is a new
    list [[12]]. *)
Lemma triple_multiplies_by_3_witness :
  let s := {| globals := ∅; heap := [OList [VInt 4]]; stdout := [] |} in
  call 2 (VFunction c_triple []) [VInt 4] [] s = (Normal (VInt 12), s)
  ∧ call 2 (VFunction c_triple []) [VObj 0%nat] [] s
    = (Normal (VObj 1%nat),
       {| globals := ∅; heap := [OList [VInt 4]; OList [VInt 12]]; stdout := [] |}).
Proof.
  intros s.
  pose proof (triple_multiplies_by_3 0 s) as H. cbv zeta in H.
  destruct H as (H1 & _ & _ & H2 & _).
  split.
  - exact (H1 (VInt 4) eq_refl).
  - exact (proj1 (H2 0%nat [VInt 4] eq_refl eq_refl)).
Defined.

(** ** The class-scoped field: [Car.petrol_price] *)

(** In a class that derives from [object] only, a name is looked up in
    the class's own dictionary. *)
Lemma class_lookup_own (s : state) (c : loc) (k : class_obj) (name : string) :
  heap s !! c = Some (OClass k) →
  cls_mro k = [CU c; CB C_object] →
  class_lookup s (CU c) name = cls_attrs k !! name.
Proof.
  intros Hc Hmro. unfold class_lookup, mro_of. rewrite Hc. cbn [mbind option_bind].
  rewrite Hmro. cbn [lookup_mro class_dict]. rewrite Hc.
  destruct (cls_attrs k !! name); [reflexivity|]. rewrite lookup_empty. reflexivity.
Qed.

(** [Car()]: a new instance with an empty dictionary; the class defines
    no [__init__]. *)
Lemma new_car (n : nat) (s : state) (c : loc) (k : class_obj) :
  heap s !! c = Some (OClass k) → car_class k c →
  call (S (S n)) (VClass (CU c)) [] [] s
  = (Normal (VObj (length (heap s))), with_heap s (heap s ++ [OInstance (CU c) ∅])).
Proof.
  intros Hc [Hkind Hmro _ _ Hinit].
  change (call (S (S n)) (VClass (CU c)) [] [] s)
    with (instantiate (call (S n)) (CU c) [] [] s).
  unfold instantiate.
  rewrite (bind_normal _ _ s s (OClass k)) by (apply deref_some; exact Hc).
  rewrite Hkind. rewrite bind_run.
  change (alloc (OInstance (CU c) ∅) s)
    with (Normal (length (heap s)), with_heap s (heap s ++ [OInstance (CU c) ∅])).
  cbv iota beta. rewrite bind_run. cbn [get_state]. 
  rewrite (class_lookup_own _ c k) by
    first [apply lookup_app_l_Some; exact Hc | exact Hmro].
  rewrite Hinit. reflexivity.
Qed.

(** Reading an attribute: the instance dictionary wins. *)
Lemma getattr_own (s : state) (l : loc) (c : cref) (attrs : gmap string value)
    (name : string) (x : value) :
  heap s !! l = Some (OInstance c attrs) →
  attrs !! name = Some x →
  py_getattr (VObj l) name s = (Normal x, s).
Proof.
  intros Hl Hx. unfold py_getattr.
  rewrite (bind_normal _ _ s s (OInstance c attrs)) by (apply deref_some; exact Hl).
  rewrite Hx. reflexivity.
Qed.

(** Otherwise the class provides the value. *)
Lemma getattr_class (s : state) (l : loc) (c : cref) (attrs : gmap string value)
    (name : string) (x : value) :
  heap s !! l = Some (OInstance c attrs) →
  attrs !! name = None →
  class_lookup s c name = Some x →
  py_getattr (VObj l) name s = (Normal (bind_method (VObj l) x), s).
Proof.
  intros Hl Hmiss Hx. unfold py_getattr.
  rewrite (bind_normal _ _ s s (OInstance c attrs)) by (apply deref_some; exact Hl).
  rewrite Hmiss, bind_run. cbn [get_state]. rewrite Hx. reflexivity.
Qed.

Lemma getattr_of_class (s : state) (c : loc) (name : string) (x : value) :
  class_lookup s (CU c) name = Some x →
  py_getattr (VClass (CU c)) name s = (Normal x, s).
Proof.
  intros Hx. unfold py_getattr. rewrite bind_run. cbn [get_state].
  rewrite Hx. reflexivity.
Qed.

(** [a.set_pretol_price(price)] writes into the dictionary of [a]. *)
Lemma set_price (n : nat) (s : state) (l : loc) (c : cref)
    (attrs : gmap string value) (price : value) :
  heap s !! l = Some (OInstance c attrs) →
  call (S (S n)) (VBound (VObj l) (VFunction c_Car_set_pretol_price [])) [price] [] s
  = (Normal VNone,
     with_heap s (<[l := OInstance c (<["petrol_price" := price]> attrs)]> (heap s))).
Proof.
  intros Hl.
  change (call (S (S n)) (VBound (VObj l) (VFunction c_Car_set_pretol_price []))
            [price] [] s)
    with (Car_set_pretol_price (VObj l) price s).
  unfold Car_set_pretol_price, py_setattr.
  rewrite bind_run, (bind_normal _ _ s s (OInstance c attrs))
    by (apply deref_some; exact Hl).
  reflexivity.
Qed.

(** C4.  Let [Car] be the class of lines 416 to 420.  The class and two
    new instances all read [petrol_price] as [2].  After the
    first instance is given a price through [set_pretol_price] (the
    script gives 5), that instance reads the new price, the second
    instance still reads [2], and so does the class: the assignment
    wrote into the first instance's own dictionary, and the heap holds
    nothing new but the two instances. *)
Theorem car_price_shadowing (n : nat) (s : state) (c : loc) (k : class_obj) (price : value) :
  heap s !! c = Some (OClass k) →
  car_class k c →
  two_cars (3 + n) (VClass (CU c)) price s
  = (Normal [VInt 2; VInt 2; VInt 2; price; VInt 2; VInt 2],
     with_heap s (heap s ++ [OInstance (CU c) {[ "petrol_price" := price ]};
                             OInstance (CU c) ∅])).
Proof.
  intros Hc Hcar.
  pose proof (lookup_lt_Some _ _ _ Hc) as Hlt.
  set (h := heap s) in *.
  set (a := length h).
  set (h1 := h ++ [OInstance (CU c) ∅]).
  set (h2 := h1 ++ [OInstance (CU c) ∅]).
  set (h3 := <[a := OInstance (CU c) (<["petrol_price" := price]> ∅)]> h2).
  assert (Hc1 : h1 !! c = Some (OClass k)) by (apply lookup_app_l_Some; exact Hc).
  assert (Hc2 : h2 !! c = Some (OClass k)) by (apply lookup_app_l_Some; exact Hc1).
  assert (Hc3 : h3 !! c = Some (OClass k)).
  { subst h3. rewrite list_lookup_insert_ne by (subst a; lia). exact Hc2. }
  assert (Ha2 : h2 !! a = Some (OInstance (CU c) ∅)).
  { subst h2. apply lookup_app_l_Some. apply list_lookup_middle. reflexivity. }
  assert (Hb2 : h2 !! S a = Some (OInstance (CU c) ∅)).
  { subst h2. apply list_lookup_middle. subst h1 a. rewrite length_app. simpl. lia. }
  assert (Ha3 : h3 !! a = Some (OInstance (CU c) (<["petrol_price" := price]> ∅))).
  { subst h3. apply list_lookup_insert_eq. apply lookup_lt_Some in Ha2. exact Ha2. }
  assert (Hb3 : h3 !! S a = Some (OInstance (CU c) ∅)).
  { subst h3. rewrite list_lookup_insert_ne by lia. exact Hb2. }
  destruct Hcar as [Hkind Hmro Hprice Hsetter Hinit].
  assert (Hcar : car_class k c) by (constructor; assumption).
  unfold two_cars. change (3 + n)%nat with (S (S (S n))).
  step (new_car (S n) s c k Hc Hcar).
  change (with_heap s (heap s ++ [OInstance (CU c) ∅])) with (with_heap s h1).
  change (length (heap s)) with a.
  step (new_car (S n) (with_heap s h1) c k Hc1 Hcar).
  change (length (heap (with_heap s h1))) with (length h1).
  replace (length h1) with (S a) by (subst h1 a; rewrite length_app; simpl; lia).
  change (with_heap (with_heap s h1) (heap (with_heap s h1) ++ [OInstance (CU c) ∅]))
    with (with_heap s h2).
  step (getattr_of_class (with_heap s h2) c "petrol_price" (VInt 2)
          (eq_trans (class_lookup_own (with_heap s h2) c k _ Hc2 Hmro) Hprice)).
  step (getattr_class (with_heap s h2) a (CU c) ∅ "petrol_price" (VInt 2) Ha2
          (lookup_empty _)
          (eq_trans (class_lookup_own (with_heap s h2) c k _ Hc2 Hmro) Hprice)).
  step (getattr_class (with_heap s h2) (S a) (CU c) ∅ "petrol_price" (VInt 2) Hb2
          (lookup_empty _)
          (eq_trans (class_lookup_own (with_heap s h2) c k _ Hc2 Hmro) Hprice)).
  step (getattr_class (with_heap s h2) a (CU c) ∅ "set_pretol_price" _ Ha2
          (lookup_empty _)
          (eq_trans (class_lookup_own (with_heap s h2) c k _ Hc2 Hmro) Hsetter)).
  cbn [bind_method].
  step (set_price (S n) (with_heap s h2) a (CU c) ∅ price Ha2).
  change (with_heap (with_heap s h2) _) with (with_heap s h3).
  step (getattr_own (with_heap s h3) a (CU c) _ "petrol_price" price Ha3
          (lookup_insert_eq _ _ _)).
  step (getattr_class (with_heap s h3) (S a) (CU c) ∅ "petrol_price" (VInt 2) Hb3
          (lookup_empty _)
          (eq_trans (class_lookup_own (with_heap s h3) c k _ Hc3 Hmro) Hprice)).
  step (getattr_of_class (with_heap s h3) c "petrol_price" (VInt 2)
          (eq_trans (class_lookup_own (with_heap s h3) c k _ Hc3 Hmro) Hprice)).
  cbn [bind_method]. unfold mret, M_ret. f_equal. unfold with_heap. f_equal.
  subst h3 h2 h1 a. rewrite <- app_assoc. 
  replace (length h) with (length h + 0)%nat by lia.
  rewrite insert_app_r. reflexivity.
Qed.

(** In the module, [Car] is the object at address 35, and the price of
    line 426 is 5. *)
Lemma car_price_shadowing_witness :
  let s := state_after_class_Car 3 in
  globals s !! "Car" = Some (VClass (CU 35%nat))
  ∧ fst (two_cars 3 (VClass (CU 35%nat)) (VInt 5) s)
    = Normal [VInt 2; VInt 2; VInt 2; VInt 5; VInt 2; VInt 2].
Proof.
  intros s. split; [vm_compute; reflexivity|].
  assert (∃ k, heap s !! 35%nat = Some (OClass k) ∧ car_class k 35) as (k & Hk & Hcar).
  { eexists. split; [vm_compute; reflexivity|].
    constructor; vm_compute; reflexivity. }
  exact (f_equal fst (car_price_shadowing 0 s 35 k (VInt 5) Hk Hcar)).
Defined.

(** The script's own check, with its single car: lines 423 to 428 run
    and their four assertions hold. *)
Lemma section_9_3_completes (n : nat) :
  let s0 := snd (module_before (3 + n) 10 initial_state) in
  fst (section_9_3 (3 + n) s0) = Normal tt.
Proof. vm_compute. reflexivity. Qed.

(** ** Variance: [WebCamStreamingService] *)

(** C2.  In the script as it is, the service of lines 837 to 840 is never
    defined: the run of the module ends at line 820, before the class
    statement of [WebCamStreamingService], so the name is unbound, and
    constructing the service with either configuration raises
    [NameError] instead of succeeding. *)
Theorem service_is_never_defined (n : nat) :
  let fuel := (3 + n)%nat in
  let s := snd (module fuel initial_state) in
  globals s !! "AbstractStreamingService" = None
  ∧ globals s !! "WebCamStreamingService" = None
  ∧ raises (construct_service fuel "WebCamStreamingServiceConfig" s)
           C_NameError "name 'WebCamStreamingService' is not defined"
  ∧ raises (construct_service fuel "HighSpeedWebCamStreamingServiceConfig" s)
           C_NameError "name 'WebCamStreamingService' is not defined"
  ∧ raises (show_quality_of fuel "WebCamStreamingServiceConfig" s)
           C_NameError "name 'WebCamStreamingService' is not defined".
Proof.
  cbv zeta.
  repeat split; try (vm_compute; reflexivity);
    eexists; split; vm_compute; reflexivity.
Qed.

(** With that one import the module runs to its end, the three
    constructions of lines 843 to 845 included, and the service built on
    either configuration reports the quality "720p". *)
Lemma show_quality_with_Generic (n : nat) :
  let fuel := (3 + n)%nat in
  let r := module_with_Generic fuel initial_state in
  fst r = Normal tt
  ∧ stdout (snd r) = console_lines
  ∧ fst (show_quality_of fuel "WebCamStreamingServiceConfig" (snd r))
    = Normal (VStr "720p")
  ∧ fst (show_quality_of fuel "HighSpeedWebCamStreamingServiceConfig" (snd r))
    = Normal (VStr "720p").
Proof.
  cbv zeta. repeat split; vm_compute; reflexivity.
Qed.
